(** * waybar-ai-usage: the Copilot module ([src/copilot.py])

    A shallow embedding of the Copilot usage reporter and the properties its
    specification states about it.

    Conventions of the embedding:
    - a Python [str] is a [string]; a character stands for the code point of
      the same number, so the model covers text over U+0000..U+00FF;
    - a Python [int] is a [Z]; a Python [float] is an IEEE 754 binary64 value,
      a [spec_float] computed at precision 53 and maximal exponent 1024 with
      the Standard Library's reference operations (round to nearest, ties to
      even);
    - a raised exception is the [Raise] case of [result]; code that talks to
      the network, the cache or the clock threads a [world];
    - the helpers imported from the [common] module are not part of the
      sources at hand: [get_cached_or_fetch] is modelled from the
      specification, [format_eta] and [format_output] are section variables. *)

From Stdlib Require Import ZArith List Bool Ascii String Lia.
From Stdlib Require Import Floats.SpecFloat Numbers.DecimalString Numbers.DecimalPos.
From stdpp Require Import base option gmap strings.

Local Open Scope string_scope.
Local Open Scope Z_scope.

(** ** Exceptions and the error monad *)

Inductive exn_class :=
| RuntimeError | ValueError | OverflowError | TypeError
| AttributeError | ZeroDivisionError.

Record exn := Exn { exn_cls : exn_class; exn_msg : string }.

Inductive result (A : Type) :=
| Ok (a : A)
| Raise (e : exn).
Arguments Ok {A} a.
Arguments Raise {A} e.

Definition rbind {A B} (r : result A) (k : A -> result B) : result B :=
  match r with
  | Ok a => k a
  | Raise e => Raise e
  end.

Definition rmap {A B} (f : A -> B) (r : result A) : result B :=
  rbind r (fun a => Ok (f a)).

Notation "x <~ e ;; k" := (rbind e (fun x => k))
  (at level 100, e at next level, right associativity).

(** ** Python numbers *)

Module Py.

(** *** binary64 *)

Definition prec : Z := 53.
Definition emax : Z := 1024.

Abbreviation float := spec_float.

Definition fdiv : float -> float -> float := SFdiv prec emax.
Definition fmul : float -> float -> float := SFmul prec emax.
Definition fadd : float -> float -> float := SFadd prec emax.

(** The double nearest to the integer [n]. *)
Definition nearest_of_Z (n : Z) : float := binary_normalize prec emax n 0 false.

(** The double nearest to [n / d] for integers [n] and [d > 0]; this is
    what [strtod] returns on a decimal literal and what [int / int]
    computes. *)
Definition nearest_of_ratio (n d : Z) : float :=
  match n, d with
  | Z0, _ => S754_zero false
  | Zpos p, Zpos q => fdiv (S754_finite false p 0) (S754_finite false q 0)
  | Zneg p, Zpos q => fdiv (S754_finite true p 0) (S754_finite false q 0)
  | _, _ => S754_nan
  end.

Definition is_finite (x : float) : bool :=
  match x with
  | S754_zero _ | S754_finite _ _ _ => true
  | _ => false
  end.

(** [a / b] rounded to the nearest integer, ties to the even one ([b > 0]). *)
Definition div_half_even (a b : Z) : Z :=
  let q := a / b in
  let r := a mod b in
  match 2 * r ?= b with
  | Lt => q
  | Gt => q + 1
  | Eq => if Z.even q then q else q + 1
  end.

(** The exact value of a finite double as a fraction [(n, d)], [d > 0]. *)
Definition to_ratio (x : float) : Z * Z :=
  match x with
  | S754_finite s m e =>
      let n := if s then Zneg m else Zpos m in
      if 0 <=? e then (n * 2 ^ e, 1) else (n, 2 ^ (- e))
  | _ => (0, 1)
  end.

(** *** The numeric tower: [int] and [float] *)

Inductive num :=
| Int (n : Z)
| Float (x : float).

(** [float(n)] for an [int]: the nearest double, [OverflowError] beyond the
    range. *)
Definition float_of_int (n : Z) : result float :=
  match nearest_of_Z n with
  | S754_infinity _ => Raise (Exn OverflowError "int too large to convert to float")
  | x => Ok x
  end.

Definition is_zero (x : float) : bool :=
  match x with S754_zero _ => true | _ => false end.

(** [a / b]: true division. *)
Definition truediv (a b : num) : result float :=
  match a, b with
  | Int n, Int d =>
      if d =? 0 then Raise (Exn ZeroDivisionError "division by zero")
      else
        let q := if 0 <? d then nearest_of_ratio n d
                 else match n with
                      | Z0 => S754_zero true
                      | _ => nearest_of_ratio (- n) (- d)
                      end in
        match q with
        | S754_infinity _ =>
            Raise (Exn OverflowError "integer division result too large for a float")
        | _ => Ok q
        end
  | _, _ =>
      x <~ match a with Int n => float_of_int n | Float x => Ok x end ;;
      y <~ match b with Int n => float_of_int n | Float y => Ok y end ;;
      if is_zero y then Raise (Exn ZeroDivisionError "float division by zero")
      else Ok (fdiv x y)
  end.

(** [a * b]. *)
Definition mul (a b : num) : result num :=
  match a, b with
  | Int m, Int n => Ok (Int (m * n))
  | _, _ =>
      x <~ match a with Int n => float_of_int n | Float x => Ok x end ;;
      y <~ match b with Int n => float_of_int n | Float y => Ok y end ;;
      Ok (Float (fmul x y))
  end.

(** [a + b]. *)
Definition add (a b : num) : result num :=
  match a, b with
  | Int m, Int n => Ok (Int (m + n))
  | _, _ =>
      x <~ match a with Int n => float_of_int n | Float x => Ok x end ;;
      y <~ match b with Int n => float_of_int n | Float y => Ok y end ;;
      Ok (Float (fadd x y))
  end.

(** [round(x)] with no digit count: the nearest [int], ties to even. *)
Definition round (a : num) : result Z :=
  match a with
  | Int n => Ok n
  | Float S754_nan => Raise (Exn ValueError "cannot convert float NaN to integer")
  | Float (S754_infinity _) =>
      Raise (Exn OverflowError "cannot convert float infinity to integer")
  | Float x => let '(n, d) := to_ratio x in Ok (div_half_even n d)
  end.

(** [round(x, 1)]: an [int] is returned as it is; a double is rounded to the
    nearest multiple of one tenth (ties to even, on its exact value) and the
    double nearest to that decimal is returned; infinities and NaN round to
    themselves. *)
Definition tenths (x : float) : Z :=
  let '(n, d) := to_ratio x in div_half_even (10 * Z.abs n) d.

Definition round1 (a : num) : num :=
  match a with
  | Int n => Int n
  | Float x =>
      match x with
      | S754_finite s _ _ =>
          let t := tenths x in
          if t =? 0 then Float (S754_zero s)
          else Float (nearest_of_ratio (if s then - t else t) 10)
      | _ => Float x
      end
  end.

(** [int(x)]: truncation toward zero. *)
Definition int (a : num) : result Z :=
  match a with
  | Int n => Ok n
  | Float S754_nan => Raise (Exn ValueError "cannot convert float NaN to integer")
  | Float (S754_infinity _) =>
      Raise (Exn OverflowError "cannot convert float infinity to integer")
  | Float x => let '(n, d) := to_ratio x in Ok (Z.quot n d)
  end.

(** [a == n] for an [int] [n]: numbers of different types compare by their
    exact values. *)
Definition eq_int (a : num) (n : Z) : bool :=
  match a with
  | Int m => m =? n
  | Float x =>
      is_finite x && (let '(p, q) := to_ratio x in p =? n * q)
  end.

End Py.

(** ** Python strings *)

Module Str.

Definition chr (n : nat) : ascii := ascii_of_nat n.
Definition code (c : ascii) : Z := Z.of_nat (nat_of_ascii c).

(** [c.isspace()] on the code points below 256. *)
Definition isspace (c : ascii) : bool :=
  let n := code c in
  ((9 <=? n) && (n <=? 13)) || ((28 <=? n) && (n <=? 32))
  || (n =? 133) || (n =? 160).

(** The line boundaries of [str.splitlines] on the code points below 256,
    apart from the pair carriage return, line feed. *)
Definition islinebreak (c : ascii) : bool :=
  let n := code c in
  ((10 <=? n) && (n <=? 13)) || ((28 <=? n) && (n <=? 30)) || (n =? 133).

Fixpoint of_rev (acc : list ascii) (tail : string) : string :=
  match acc with
  | nil => tail
  | c :: acc' => of_rev acc' (String c tail)
  end.

(** [s.splitlines()]; [acc] holds the current line, last character first. *)
Fixpoint splitlines_from (acc : list ascii) (s : string) : list string :=
  match s with
  | EmptyString =>
      match acc with
      | nil => nil
      | _ => of_rev acc "" :: nil
      end
  | String c s' =>
      if islinebreak c then
        of_rev acc "" ::
          (if (code c =? 13)%Z then
             match s' with
             | String c' s'' =>
                 if (code c' =? 10)%Z then splitlines_from nil s''
                 else splitlines_from nil s'
             | EmptyString => nil
             end
           else splitlines_from nil s')
      else splitlines_from (c :: acc) s'
  end.

Definition splitlines (s : string) : list string := splitlines_from nil s.

Fixpoint lstrip (s : string) : string :=
  match s with
  | String c s' => if isspace c then lstrip s' else s
  | EmptyString => EmptyString
  end.

Fixpoint rstrip (s : string) : string :=
  match s with
  | String c s' =>
      match rstrip s' with
      | EmptyString => if isspace c then EmptyString else String c EmptyString
      | r => String c r
      end
  | EmptyString => EmptyString
  end.

(** [s.strip()]. *)
Definition strip (s : string) : string := rstrip (lstrip s).

(** [s.startswith(p)]. *)
Definition startswith (p s : string) : bool := String.prefix p s.

(** [sub in s]. *)
Fixpoint contains (sub s : string) : bool :=
  String.prefix sub s ||
  match s with
  | String _ s' => contains sub s'
  | EmptyString => false
  end.

(** [s.partition(c)] for a separator of one character: the text before the
    first [c], the separator, the text after it; [(s, "", "")] when [c] does
    not occur. *)
Fixpoint partition_from (c : ascii) (acc : list ascii) (s : string)
  : option (string * string) :=
  match s with
  | String d s' =>
      if Ascii.eqb d c then Some (of_rev acc "", s')
      else partition_from c (d :: acc) s'
  | EmptyString => None
  end.

Definition partition (c : ascii) (s : string) : string * string * string :=
  match partition_from c nil s with
  | Some (k, v) => (k, String c "", v)
  | None => (s, "", "")
  end.

(** [str(n)] for an [int]. *)
Definition of_Z (n : Z) : string := NilEmpty.string_of_int (Z.to_int n).

Definition digit_val (c : ascii) : option Z :=
  let n := code c in
  if (48 <=? n) && (n <=? 57) then Some (n - 48) else None.

(** The digits of an integer literal: decimal digits, single underscores
    allowed between them. [count] is the number of digits read so far. *)
Fixpoint digits_from (acc : Z) (count : Z) (after_us : bool) (s : string)
  : option (Z * Z) :=
  match s with
  | EmptyString => if after_us then None else Some (acc, count)
  | String c s' =>
      if Ascii.eqb c "_" then
        if after_us then None else digits_from acc count true s'
      else
        match digit_val c with
        | Some d => digits_from (10 * acc + d) (count + 1) false s'
        | None => None
        end
  end.

(** The default of [sys.get_int_max_str_digits()]. *)
Definition MAX_STR_DIGITS : Z := 4300.

Definition unsigned_literal (s : string) : option Z :=
  match s with
  | String c _ =>
      match digit_val c with
      | Some _ =>
          match digits_from 0 0 false s with
          | Some (n, count) => if count <=? MAX_STR_DIGITS then Some n else None
          | None => None
          end
      | None => None
      end
  | EmptyString => None
  end.

(** [int(s)] in base ten: surrounding white space, an optional sign, then
    the digits. [None] stands for [ValueError]. *)
Definition to_int (s : string) : option Z :=
  match strip s with
  | String c s' =>
      if Ascii.eqb c "-" then Z.opp <$> unsigned_literal s'
      else if Ascii.eqb c "+" then unsigned_literal s'
      else unsigned_literal (String c s')
  | EmptyString => None
  end.

End Str.

(** ** [str(x)] for a [float]: the shortest decimal that reads back as [x] *)

Module Repr.

Definition float_eqb (x y : Py.float) : bool :=
  match x, y with
  | S754_zero s, S754_zero t | S754_infinity s, S754_infinity t => Bool.eqb s t
  | S754_nan, S754_nan => true
  | S754_finite s m e, S754_finite t n f =>
      Bool.eqb s t && (m =? n)%positive && (e =? f)
  | _, _ => false
  end.

(** The fraction [n / d] times [10 ^ k]. *)
Definition scale10 (n d k : Z) : Z * Z :=
  if 0 <=? k then (n * 10 ^ k, d) else (n, d * 10 ^ (- k)).

Definition ndigits (n : Z) : Z := Z.of_nat (String.length (Str.of_Z n)).

(** The position of the decimal point of [n / d > 0]: the [p] with
    [10 ^ (p - 1) <= n / d < 10 ^ p]. *)
Definition decpt_of (n d : Z) : Z :=
  if d <=? n then ndigits (n / d)
  else
    let g := 1 - ndigits (d / n) in
    let '(n', d') := scale10 n d (- g) in
    if d' <=? n' then g + 1 else g.

(** The candidate with [k] significant digits for the positive double [x]
    of exact value [n / d] and decimal point [p]: an integer [c] such that
    [c * 10 ^ (p - k)] reads back as [x], the closest to [x] if there are
    two. *)
Definition candidate (x : Py.float) (n d p k : Z) : option Z :=
  let '(n', d') := scale10 n d (k - p) in
  let lo := n' / d' in
  let hi := lo + 1 in
  let reads_back c :=
    let '(cn, cd) := scale10 c 1 (p - k) in
    float_eqb (Py.nearest_of_ratio cn cd) x in
  match reads_back lo, reads_back hi with
  | true, true =>
      match 2 * (n' mod d') ?= d' with
      | Lt => Some lo
      | Gt => Some hi
      | Eq => Some (if Z.even lo then lo else hi)
      end
  | true, false => Some lo
  | false, true => Some hi
  | false, false => None
  end.

(** Try 1, 2, ... significant digits; seventeen always suffice. *)
Fixpoint shortest (fuel : nat) (x : Py.float) (n d p k : Z) : Z * Z :=
  match fuel with
  | O => (Py.div_half_even (fst (scale10 n d (k - p))) (snd (scale10 n d (k - p))), p - k)
  | S fuel' =>
      match candidate x n d p k with
      | Some c => (c, p - k)
      | None => shortest fuel' x n d p (k + 1)
      end
  end.

(** Drop the trailing zeros of [c * 10 ^ e]. *)
Fixpoint drop_zeros (fuel : nat) (c e : Z) : Z * Z :=
  match fuel with
  | O => (c, e)
  | S fuel' =>
      if (c mod 10 =? 0) && negb (c =? 0) then drop_zeros fuel' (c / 10) (e + 1)
      else (c, e)
  end.

Fixpoint zeros (n : nat) : string :=
  match n with
  | O => ""
  | S n' => String "0" (zeros n')
  end.

Definition take (n : Z) (s : string) : string := String.substring 0 (Z.to_nat n) s.
Definition drop (n : Z) (s : string) : string :=
  String.substring (Z.to_nat n) (String.length s - Z.to_nat n) s.

(** The layout of [repr]: positional notation with at least one digit after
    the point when the decimal point [decpt] lies in [-3 .. 16], scientific
    notation with an exponent of at least two digits otherwise. *)
Definition layout (digits : string) (decpt : Z) : string :=
  let nd := Z.of_nat (String.length digits) in
  if (decpt <=? -4) || (16 <? decpt) then
    let ex := decpt - 1 in
    let mant :=
      if nd =? 1 then digits
      else String.append (take 1 digits) (String.append "." (drop 1 digits)) in
    let exs := Str.of_Z (Z.abs ex) in
    String.append mant
      (String.append (if ex <? 0 then "e-" else "e+")
         (if Z.abs ex <? 10 then String.append "0" exs else exs))
  else if decpt <=? 0 then
    String.append "0." (String.append (zeros (Z.to_nat (- decpt))) digits)
  else if decpt <? nd then
    String.append (take decpt digits) (String.append "." (drop decpt digits))
  else
    String.append digits (String.append (zeros (Z.to_nat (decpt - nd))) ".0").

(** [repr(x)], which is also [str(x)]. *)
Definition of_float (x : Py.float) : string :=
  match x with
  | S754_nan => "nan"
  | S754_infinity s => if s then "-inf" else "inf"
  | S754_zero s => if s then "-0.0" else "0.0"
  | S754_finite s m e =>
      let '(n, d) := Py.to_ratio (S754_finite false m e) in
      let p := decpt_of n d in
      let '(c, ex) := shortest 17 (S754_finite false m e) n d p 1 in
      let '(c', ex') := drop_zeros 17 c ex in
      let digits := Str.of_Z c' in
      let body := layout digits (Z.of_nat (String.length digits) + ex') in
      if s then String.append "-" body else body
  end.

(** [str(a)] for a number. *)
Definition of_num (a : Py.num) : string :=
  match a with
  | Py.Int n => Str.of_Z n
  | Py.Float x => of_float x
  end.

End Repr.

(** ** JSON values, as [json.loads] returns them *)

#[warnings="-register-all"]
Inductive json :=
| JNull
| JBool (b : bool)
| JNum (n : Py.num)
| JStr (s : string)
| JList (items : list json)
| JDict (fields : list (string * json)).

(** [d.get(key)] on the fields of a [dict]. *)
Fixpoint dict_get (key : string) (fields : list (string * json)) : option json :=
  match fields with
  | nil => None
  | (k, v) :: rest => if String.eqb k key then Some v else dict_get key rest
  end.

(** [type(v).__name__]. *)
Definition type_name (v : json) : string :=
  match v with
  | JNull => "NoneType"
  | JBool _ => "bool"
  | JNum (Py.Int _) => "int"
  | JNum (Py.Float _) => "float"
  | JStr _ => "str"
  | JList _ => "list"
  | JDict _ => "dict"
  end.

(** [bool(v)]: the truth value of [v]. *)
Definition truthy (v : json) : bool :=
  match v with
  | JNull => false
  | JBool b => b
  | JNum (Py.Int n) => negb (n =? 0)
  | JNum (Py.Float x) => negb (Py.is_zero x)
  | JStr s => negb (String.eqb s "")
  | JList l => match l with nil => false | _ => true end
  | JDict d => match d with nil => false | _ => true end
  end.

(** [v.get(key, default)]: only a [dict] has the method. *)
Definition py_get (v : json) (key : string) (dflt : json) : result json :=
  match v with
  | JDict fields => Ok (from_option id dflt (dict_get key fields))
  | _ => Raise (Exn AttributeError
                  ("'" ++ type_name v ++ "' object has no attribute 'get'"))
  end.

(** The items a [for] loop over [v] visits. *)
Definition py_iter (v : json) : result (list json) :=
  match v with
  | JList l => Ok l
  | JDict d => Ok (map (fun kv => JStr (fst kv)) d)
  | JStr s => Ok (map (fun c => JStr (String c "")) (list_ascii_of_string s))
  | _ => Raise (Exn TypeError ("'" ++ type_name v ++ "' object is not iterable"))
  end.

(** The number a value stands for in arithmetic; [bool] is a subtype of
    [int]. *)
Definition as_num (v : json) : option Py.num :=
  match v with
  | JNum n => Some n
  | JBool b => Some (Py.Int (if b then 1 else 0))
  | _ => None
  end.

(** [acc + v] inside [sum]. *)
Definition py_add (acc : Py.num) (v : json) : result Py.num :=
  match as_num v with
  | Some n => Py.add acc n
  | None =>
      Raise (Exn TypeError
               ("unsupported operand type(s) for +: '"
                  ++ type_name (JNum acc) ++ "' and '" ++ type_name v ++ "'"))
  end.

(** ** Configuration *)

Definition DEFAULT_QUOTA : Z := 300.
Definition GITHUB_API_BASE : string := "https://api.github.com".
Definition COPILOT_COLOR : string := "#8b5cf6".

(** The two glyphs lie outside the code points below 256; they are kept as
    their UTF-8 bytes and no operation looks inside them. *)
Definition COPILOT_ICON : string :=
  String (Str.chr 239) (String (Str.chr 147) (String (Str.chr 184) "")).
Definition TIME_ICON : string :=
  String (Str.chr 243) (String (Str.chr 176) (String (Str.chr 148)
    (String (Str.chr 154) ""))).

(** The [dict] that [load_copilot_config] returns has exactly two keys. *)
Record config := Config {
  GITHUB_TOKEN : option string;
  COPILOT_QUOTA : Z
}.

(** One turn of the loop over the lines of the file. *)
Definition config_line (cfg : config) (line : string) : config :=
  let line := Str.strip line in
  if String.eqb line "" || Str.startswith "#" line then cfg
  else if Str.contains "=" line then
    let '(key, _, value) := Str.partition "=" line in
    let key := Str.strip key in
    let value := Str.strip value in
    if String.eqb key "GITHUB_TOKEN" then
      Config (Some value) (COPILOT_QUOTA cfg)
    else if String.eqb key "COPILOT_QUOTA" then
      match Str.to_int value with
      | Some n => Config (GITHUB_TOKEN cfg) n
      | None => cfg
      end
    else cfg
  else cfg.

(** [load_copilot_config]: [file] is the text of the file at the path, or
    [None] when no such file exists. *)
Definition load_copilot_config (file : option string) : config :=
  let cfg := Config None DEFAULT_QUOTA in
  match file with
  | None => cfg
  | Some text => fold_left config_line (Str.splitlines text) cfg
  end.

(** ** The world: clock, cache, network *)

Inductive endpoint :=
| UserEndpoint                       (* GITHUB_API_BASE/user *)
| UsageEndpoint (username : json).   (* .../users/{username}/settings/billing/premium_request/usage *)

(** What [urlopen] and [json.loads] make of a request. *)
Inductive response :=
| Body (data : json)
| HTTPError (code : Z) (body : string)
| URLError (reason : string)
| Failure (e : exn).   (* any other exception: it is not caught *)

Record cache_entry := CacheEntry {
  value : json;
  fetched_at : Z;
  ttl_seconds : Z
}.

Inductive event :=
| Requested (url : endpoint) (token : string)   (* one call of the transport *)
| Produced (key : string).                      (* one call of a cache producer *)

Record world := World {
  clock : Z;                          (* seconds *)
  store : gmap string cache_entry;    (* the persistent cache *)
  trace : list event                  (* what has happened, latest first *)
}.

Definition M (A : Type) : Type := world -> result A * world.

Definition lift {A} (r : result A) : M A := fun w => (r, w).

Definition bind {A B} (m : M A) (k : A -> M B) : M B :=
  fun w =>
    match m w with
    | (Ok a, w') => k a w'
    | (Raise e, w') => (Raise e, w')
    end.

Notation "x <<~ e ;; k" := (bind e (fun x => k))
  (at level 100, e at next level, right associativity).

Definition log (ev : event) : M unit :=
  fun w => (Ok tt, World (clock w) (store w) (ev :: trace w)).

(** Modelled from the spec: the lifetime that [get_cached_or_fetch] of the
    absent [common] module uses when the caller names none, 60 seconds (also
    the figure in the docstring of [get_copilot_usage]). *)
Definition DEFAULT_TTL : Z := 60.

(** Modelled from the spec: the freshness of a [CacheEntry],
    [fetched_at + ttl_seconds > now]. *)
Definition fresh (now : Z) (e : cache_entry) : bool :=
  now <? fetched_at e + ttl_seconds e.

(** Modelled from the spec: the miss of [get_cached_or_fetch]. The producer
    runs; on success its value is stored under [key] with the current time
    and [ttl], replacing what was there; a failing producer leaves the store
    as it is and the failure goes to the caller. The [Produced] event is a
    record of the call for the proofs. *)
Definition refresh (key : string) (producer : M json) (ttl : Z) : M json :=
  _ <<~ log (Produced key) ;;
  v <<~ producer ;;
  fun w => (Ok v, World (clock w)
                    (<[key := CacheEntry v (clock w) ttl]> (store w))
                    (trace w)).

(** Modelled from the spec: [get_cached_or_fetch] of the [common] module,
    which is not among the sources. A fresh entry under [key] is returned
    without calling the producer; otherwise see [refresh]. *)
Definition get_cached_or_fetch (key : string) (producer : M json) (ttl : Z) : M json :=
  fun w =>
    match store w !! key with
    | Some e => if fresh (clock w) e then (Ok (value e), w)
                else refresh key producer ttl w
    | None => refresh key producer ttl w
    end.

(** ** Dates *)

Record datetime := DateTime {
  year : Z; month : Z; day : Z;
  hour : Z; minute : Z; second : Z; microsecond : Z
}.

Definition MINYEAR : Z := 1.
Definition MAXYEAR : Z := 9999.

Definition is_leap (y : Z) : bool :=
  (y mod 4 =? 0) && (negb (y mod 100 =? 0) || (y mod 400 =? 0)).

Definition days_in_month (y m : Z) : Z :=
  if m =? 2 then (if is_leap y then 29 else 28)
  else if (m =? 4) || (m =? 6) || (m =? 9) || (m =? 11) then 30
  else 31.

(** [datetime(y, m, d, tzinfo=timezone.utc)]: midnight of a day of the
    proleptic Gregorian calendar, [ValueError] outside its range. *)
Definition mk_datetime (y m d : Z) : result datetime :=
  if negb ((MINYEAR <=? y) && (y <=? MAXYEAR)) then
    Raise (Exn ValueError ("year " ++ Str.of_Z y ++ " is out of range"))
  else if negb ((1 <=? m) && (m <=? 12)) then
    Raise (Exn ValueError "month must be in 1..12")
  else if negb ((1 <=? d) && (d <=? days_in_month y m)) then
    Raise (Exn ValueError "day is out of range for month")
  else Ok (DateTime y m d 0 0 0 0).

(** A value that [datetime.now(timezone.utc)] can return. *)
Definition valid_datetime (t : datetime) : bool :=
  (MINYEAR <=? year t) && (year t <=? MAXYEAR)
  && (1 <=? month t) && (month t <=? 12)
  && (1 <=? day t) && (day t <=? days_in_month (year t) (month t))
  && (0 <=? hour t) && (hour t <? 24)
  && (0 <=? minute t) && (minute t <? 60)
  && (0 <=? second t) && (second t <? 60)
  && (0 <=? microsecond t) && (microsecond t <? 1000000).

(** [n] written with at least [width] digits, zeros in front. *)
Definition zero_pad (width : nat) (n : Z) : string :=
  let digits := Str.of_Z n in
  Repr.zeros (width - String.length digits) ++ digits.

(** [t.isoformat()] for a time in UTC. *)
Definition isoformat (t : datetime) : string :=
  zero_pad 4 (year t) ++ "-" ++ zero_pad 2 (month t) ++ "-" ++ zero_pad 2 (day t)
  ++ "T" ++ zero_pad 2 (hour t) ++ ":" ++ zero_pad 2 (minute t) ++ ":"
  ++ zero_pad 2 (second t)
  ++ (if microsecond t =? 0 then "" else "." ++ zero_pad 6 (microsecond t))
  ++ "+00:00".

(** [_next_month_reset_iso], in two steps: the reset instant, then its ISO
    text. [now] is the reading of [datetime.now(timezone.utc)]. *)
Definition next_month_reset (now : datetime) : result datetime :=
  if month now =? 12 then mk_datetime (year now + 1) 1 1
  else mk_datetime (year now) (month now + 1) 1.

Definition _next_month_reset_iso (now : datetime) : result string :=
  rmap isoformat (next_month_reset now).

(** ** The fetch pipeline *)

(** The [try] of [_github_get]: the body of a good answer, a
    [RuntimeError] for an HTTP or URL error. *)
Definition received (r : response) : result json :=
  match r with
  | Body data => Ok data
  | HTTPError code body =>
      Raise (Exn RuntimeError ("HTTP " ++ Str.of_Z code ++ ": " ++ body))
  | URLError reason => Raise (Exn RuntimeError ("Network error: " ++ reason))
  | Failure e => Raise e
  end.

Section Pipeline.

(** The remote side: what a request to an endpoint with a token comes back
    with. *)
Variable net : endpoint -> string -> response.

Definition _github_get (url : endpoint) (token : string) : M json :=
  _ <<~ log (Requested url token) ;;
  lift (received (net url token)).

Definition identity_error : exn :=
  Exn RuntimeError "Could not determine GitHub username from /user endpoint".

(** What [_get_github_username] makes of the (possibly cached) answer. *)
Definition username_of (data : json) : result json :=
  let username :=
    match data with
    | JDict fields => from_option id JNull (dict_get "login" fields)
    | _ => JNull
    end in
  if negb (truthy username) then Raise identity_error else Ok username.

Definition _get_github_username (token : string) : M json :=
  data <<~ get_cached_or_fetch "copilot_user" (_github_get UserEndpoint token) 3600 ;;
  lift (username_of data).

(** [sum(item.get("grossQuantity", 0) for item in usage_items)]: the items
    are added from left to right onto the start value 0, as the language
    reference defines [sum] (the correction term that CPython 3.12 carries
    along for [float] items is not tracked). *)
Fixpoint sum_gross (acc : Py.num) (items : list json) : result Py.num :=
  match items with
  | nil => Ok acc
  | item :: rest =>
      v <~ py_get item "grossQuantity" (JNum (Py.Int 0)) ;;
      acc' <~ py_add acc v ;;
      sum_gross acc' rest
  end.

(** The part of [_fetch_copilot_usage_uncached] after the request. *)
Definition reduce_usage (usage_data : json) : result json :=
  usage_items <~ match usage_data with
                 | JList _ => Ok usage_data
                 | _ => py_get usage_data "usageItems" (JList nil)
                 end ;;
  items <~ py_iter usage_items ;;
  used <~ sum_gross (Py.Int 0) items ;;
  Ok (JDict (("used", JNum (Py.round1 used)) :: ("raw", usage_data) :: nil)).

Definition _fetch_copilot_usage_uncached (token : string) : M json :=
  username <<~ _get_github_username token ;;
  usage_data <<~ _github_get (UsageEndpoint username) token ;;
  lift (reduce_usage usage_data).

Definition get_copilot_usage (token : string) : M json :=
  get_cached_or_fetch "copilot" (_fetch_copilot_usage_uncached token) DEFAULT_TTL.

End Pipeline.

(** ** Output: terminal and Waybar *)

(** [round(used / quota * 100)] *)
Definition percentage_formula (used : Py.num) (quota : Z) : result Z :=
  q <~ Py.truediv used (Py.Int quota) ;;
  p <~ Py.mul (Py.Float q) (Py.Int 100) ;;
  Py.round p.

(** [round(used / quota * 100) if quota > 0 else 0] *)
Definition raw_pct (used : Py.num) (quota : Z) : result Z :=
  if 0 <? quota then percentage_formula used quota else Ok 0.

(** [str(int(used)) if used == int(used) else str(used)] *)
Definition used_str_of (used : Py.num) : result string :=
  n <~ Py.int used ;;
  if Py.eq_int used n then Ok (Str.of_Z n) else Ok (Repr.of_num used).

(** The [class] of the payload. *)
Definition cls_of (pct : Z) : string :=
  if pct <? 50 then "copilot-low"
  else if pct <? 80 then "copilot-mid"
  else "copilot-high".

Fixpoint repeat_string (s : string) (n : nat) : string :=
  match n with
  | O => ""
  | S n' => s ++ repeat_string s n'
  end.

Definition NL : string := String (Str.chr 10) "".

(** U+2501, as its UTF-8 bytes. *)
Definition HEAVY_LINE : string :=
  String (Str.chr 226) (String (Str.chr 148) (String (Str.chr 129) "")).

Section Output.

(** The two helpers of the [common] module that the sources do not hold. *)
Variable format_eta : string -> string.
Variable format_output : string -> list (string * json) -> result string.

(** The lines that [print_cli] prints. *)
Definition print_cli (used : Py.num) (quota : Z) (now : datetime) : result (list string) :=
  pct <~ raw_pct used quota ;;
  reset_iso <~ _next_month_reset_iso now ;;
  let reset_str := format_eta reset_iso in
  Ok ("GitHub Copilot Premium Requests"
      :: repeat_string "-" 40
      :: ("Used : " ++ Repr.of_num used ++ " / " ++ Str.of_Z quota
          ++ " (" ++ Str.of_Z pct ++ "%)")
      :: ("Reset: " ++ reset_str ++ " (next month, 1st at 00:00 UTC)")
      :: nil).

(** A template that is present and not empty. *)
Definition given (template : option string) : option string :=
  match template with
  | Some t => if String.eqb t "" then None else Some t
  | None => None
  end.

(** The object that [print_waybar] prints as one line of JSON. *)
Definition print_waybar (used : Py.num) (quota : Z)
    (format_str tooltip_format : option string) (now : datetime) : result json :=
  raw <~ raw_pct used quota ;;
  let pct := Z.min raw 100 in
  reset_iso <~ _next_month_reset_iso now ;;
  let reset_str := format_eta reset_iso in
  let icon_styled :=
    "<span foreground='" ++ COPILOT_COLOR ++ "' size='large'>" ++ COPILOT_ICON ++ " </span>" in
  let time_icon_styled :=
    "<span foreground='" ++ COPILOT_COLOR ++ "' size='large'>" ++ TIME_ICON ++ "</span>" in
  used_str <~ used_str_of used ;;
  let data :=
    (("icon", JStr icon_styled)
     :: ("icon_plain", JStr COPILOT_ICON)
     :: ("time_icon", JStr time_icon_styled)
     :: ("time_icon_plain", JStr TIME_ICON)
     :: ("used", JNum used)
     :: ("used_str", JStr used_str)
     :: ("quota", JNum (Py.Int quota))
     :: ("pct", JNum (Py.Int pct))
     :: ("reset", JStr reset_str)
     :: nil) in
  text <~ match given format_str with
          | Some t => format_output t data
          | None => Ok (icon_styled ++ Str.of_Z pct ++ "% " ++ time_icon_styled
                        ++ " " ++ reset_str)
          end ;;
  tooltip <~ match given tooltip_format with
             | Some t => format_output t data
             | None => Ok ("GitHub Copilot Premium Requests" ++ NL
                           ++ repeat_string HEAVY_LINE 24 ++ NL
                           ++ "Used:   " ++ used_str ++ " / " ++ Str.of_Z quota
                           ++ " (" ++ Str.of_Z pct ++ "%)" ++ NL
                           ++ "Reset:  " ++ reset_str ++ " (next month)" ++ NL
                           ++ NL ++ "Click to Refresh")
             end ;;
  let cls := cls_of pct in
  Ok (JDict (("text", JStr text)
             :: ("tooltip", JStr tooltip)
             :: ("class", JStr cls)
             :: ("percentage", JNum (Py.Int pct))
             :: nil)).

(** ** The entry point *)

Record args := Args {
  waybar : bool;
  format : option string;
  tooltip_format : option string;
  config_path : string
}.

Inductive printed :=
| Text (line : string)        (* [print(line)] *)
| Json (payload : json)       (* [print(json.dumps(payload))] *)
| Traceback (e : exn).        (* the report of an exception nobody caught *)

Record outcome := Outcome {
  stdout : list printed;
  stderr : list printed;
  exit_code : Z
}.

Variable net : endpoint -> string -> response.

Definition no_token_payload (a : args) : json :=
  JDict (("text", JStr ("<span foreground='#ff5555'>" ++ COPILOT_ICON ++ " No Token</span>"))
         :: ("tooltip", JStr ("No GITHUB_TOKEN found in " ++ config_path a ++ NL
                              ++ "Create the file with:" ++ NL
                              ++ "GITHUB_TOKEN=ghp_xxxxx" ++ NL
                              ++ "COPILOT_QUOTA=300"))
         :: ("class", JStr "critical")
         :: nil).

Definition short_err_of (err_msg : string) : string :=
  if Str.contains "401" err_msg || Str.contains "403" err_msg
  then "Auth Err" else "Net Err".

Definition error_payload (e : exn) : json :=
  let err_msg := exn_msg e in
  let short_err := short_err_of err_msg in
  JDict (("text", JStr ("<span foreground='#ff5555'>" ++ COPILOT_ICON ++ " "
                        ++ short_err ++ "</span>"))
         :: ("tooltip", JStr ("Error fetching Copilot usage:" ++ NL ++ err_msg))
         :: ("class", JStr "critical")
         :: nil).

(** The body of the [try]: [get_copilot_usage(token)], then
    [usage.get("used", 0)]. *)
Definition fetch_used (token : string) : M json :=
  usage <<~ get_copilot_usage net token ;;
  lift (py_get usage "used" (JNum (Py.Int 0))).

(** What is left to do once [used] is known. The aggregator stores a number
    under "used", and [present] is exact for numbers. Any other value can
    only come from a foreign writer of the cache; the case stands for it
    with the [TypeError] that the division raises when the quota is
    positive. *)
Definition present (a : args) (used : json) (quota : Z) (now : datetime) : outcome :=
  match used with
  | JNum u =>
      if waybar a then
        match print_waybar u quota (format a) (tooltip_format a) now with
        | Ok payload => Outcome (Json payload :: nil) nil 0
        | Raise e => Outcome nil (Traceback e :: nil) 1
        end
      else
        match print_cli u quota now with
        | Ok lines => Outcome (map Text lines) nil 0
        | Raise e => Outcome nil (Traceback e :: nil) 1
        end
  | _ =>
      Outcome nil
        (Traceback (Exn TypeError
           ("unsupported operand type(s) for /: '" ++ type_name used ++ "' and 'int'")) :: nil) 1
  end.

(** [main]: [a] are the parsed arguments, [file] the text of the
    configuration file ([None] when there is none), [now] the reading of the
    UTC clock. *)
Definition main (a : args) (file : option string) (now : datetime)
  : world -> outcome * world :=
  fun w =>
    let config := load_copilot_config file in
    let quota := COPILOT_QUOTA config in
    match given (GITHUB_TOKEN config) with
    | None =>
        if waybar a then (Outcome (Json (no_token_payload a) :: nil) nil 0, w)
        else (Outcome nil
                (Text ("[!] Error: No GITHUB_TOKEN in " ++ config_path a) :: nil) 1, w)
    | Some token =>
        match fetch_used token w with
        | (Raise e, w') =>
            if waybar a then (Outcome (Json (error_payload e) :: nil) nil 0, w')
            else (Outcome nil (Text ("[!] Critical Error: " ++ exn_msg e) :: nil) 1, w')
        | (Ok used, w') => (present a used quota now, w')
        end
    end.

End Output.

(** * The notions of the specification, and sample data *)

(** ** Severity tiers *)

Inductive tier := low | mid | high.

Definition tier_name (t : tier) : string :=
  match t with
  | low => "low"
  | mid => "mid"
  | high => "high"
  end.

(** The tier as the specification words it. *)
Definition tier_of (percentage : Z) : tier :=
  if percentage <? 50 then low
  else if percentage <? 80 then mid
  else high.

Definition field (key : string) (payload : json) : option json :=
  match payload with
  | JDict fields => dict_get key fields
  | _ => None
  end.

(** ** The reset instant *)

(** Months counted from year 0: the following calendar month is the one
    whose index is larger by one. *)
Definition month_index (t : datetime) : Z := 12 * year t + (month t - 1).

Definition is_midnight (t : datetime) : bool :=
  (hour t =? 0) && (minute t =? 0) && (second t =? 0) && (microsecond t =? 0).

(** The last month from which [datetime] can step forward. *)
Definition last_month (t : datetime) : bool :=
  (year t =? MAXYEAR) && (month t =? 12).

(** ** The percentage *)

(** [used >= 0] *)
Definition nonneg (used : Py.num) : bool :=
  match used with
  | Py.Int n => 0 <=? n
  | Py.Float x => SFleb (S754_zero false) x
  end.

(** A double that is not below zero, or not a number at all. *)
Definition not_negative (x : Py.float) : bool :=
  match x with
  | S754_zero _ | S754_nan => true
  | S754_infinity s | S754_finite s _ _ => negb s
  end.

(** The line of the plain report that shows the percentage. *)
Definition used_line (used : Py.num) (quota pct : Z) : string :=
  "Used : " ++ Repr.of_num used ++ " / " ++ Str.of_Z quota
  ++ " (" ++ Str.of_Z pct ++ "%)".

Definition used_400 : Py.num := Py.Float (Py.nearest_of_Z 400).
Definition mid_june : datetime := DateTime 2024 6 15 12 0 0 0.

(** ** The configuration file *)

(** What one line of the file says, in the words of the claim: nothing when
    it is blank, a comment, without [=], about another key, or a quota that
    is no integer. *)
Inductive assignment :=
| SetToken (v : string)
| SetQuota (n : Z).

Definition assignment_of (line : string) : option assignment :=
  let line := Str.strip line in
  if String.eqb line "" then None
  else if Str.startswith "#" line then None
  else
    match Str.partition_from "=" nil line with
    | None => None
    | Some (key, v) =>
        if String.eqb (Str.strip key) "GITHUB_TOKEN" then Some (SetToken (Str.strip v))
        else if String.eqb (Str.strip key) "COPILOT_QUOTA"
             then SetQuota <$> Str.to_int (Str.strip v)
             else None
    end.

Definition assign (cfg : config) (a : option assignment) : config :=
  match a with
  | Some (SetToken v) => Config (Some v) (COPILOT_QUOTA cfg)
  | Some (SetQuota n) => Config (GITHUB_TOKEN cfg) n
  | None => cfg
  end.





(** ** The used label *)








Definition used_3_5 : Py.num := Py.Float (Py.nearest_of_ratio 35 10).

(** ** The usage total *)

(** [sum] over numbers: the items added from left to right. *)
Fixpoint py_sum (acc : Py.num) (l : list Py.num) : result Py.num :=
  match l with
  | nil => Ok acc
  | q :: rest => acc' <~ Py.add acc q ;; py_sum acc' rest
  end.

(** The [grossQuantity] of a line item, 0 when the field is missing;
    [None] when the item is no object or the field no number. *)
Definition quantity (item : json) : option Py.num :=
  match item with
  | JDict fields =>
      match dict_get "grossQuantity" fields with
      | Some v => as_num v
      | None => Some (Py.Int 0)
      end
  | _ => None
  end.

Fixpoint quantities (items : list json) : option (list Py.num) :=
  match items with
  | nil => Some nil
  | item :: rest =>
      match quantity item, quantities rest with
      | Some q, Some qs => Some (q :: qs)
      | _, _ => None
      end
  end.

Definition line_item (n d : Z) : json :=
  JDict (("product", JStr "Copilot")
         :: ("grossQuantity", JNum (Py.Float (Py.nearest_of_ratio n d)))
         :: nil).

Definition three_items : list json :=
  line_item 10 10 :: line_item 25 10 :: line_item 0 10 :: nil.

(** ** Running the pipeline *)

(** The value that the cache holds for [key], if it is fresh. *)
Definition cached (key : string) (w : world) : option json :=
  match store w !! key with
  | Some e => if fresh (clock w) e then Some (value e) else None
  | None => None
  end.

(** A later invocation: the same cache, the clock at [t]. *)
Definition at_time (t : Z) (w : world) : world := World t (store w) (trace w).

(** How often the producer of [key] has run. *)
Fixpoint produced (key : string) (tr : list event) : nat :=
  match tr with
  | nil => O
  | Produced k :: rest =>
      if String.eqb k key then S (produced key rest) else produced key rest
  | Requested _ _ :: rest => produced key rest
  end.

(** The requests to the usage endpoint. *)
Fixpoint usage_requests (tr : list event) : list event :=
  match tr with
  | nil => nil
  | Requested (UsageEndpoint u) token :: rest =>
      Requested (UsageEndpoint u) token :: usage_requests rest
  | _ :: rest => usage_requests rest
  end.

(** All requests. *)
Fixpoint requests (tr : list event) : list event :=
  match tr with
  | nil => nil
  | Requested url token :: rest => Requested url token :: requests rest
  | Produced _ :: rest => requests rest
  end.

(** The world after the identity lookup missed the cache. *)
Definition after_user_request (net : endpoint -> string -> response)
    (token : string) (w : world) : world :=
  World (clock w)
    (match received (net UserEndpoint token) with
     | Ok data => <["copilot_user" := CacheEntry data (clock w) 3600]> (store w)
     | Raise _ => store w
     end)
    (Requested UserEndpoint token :: Produced "copilot_user" :: trace w).

(** The world after the usage request. *)
Definition after_usage_request (username : json) (token : string) (w : world) : world :=
  World (clock w) (store w) (Requested (UsageEndpoint username) token :: trace w).

(** ** Identity resolution *)

Definition is_object (data : json) : bool :=
  match data with
  | JDict _ => true
  | _ => false
  end.

(** The "login" field of the identity answer, if it has one. *)
Definition login_of (data : json) : option json :=
  match data with
  | JDict fields => dict_get "login" fields
  | _ => None
  end.

Definition empty_login : json :=
  JDict (("login", JStr "") :: ("id", JNum (Py.Int 583231)) :: nil).

Definition cold : world := World 1700000000 ∅ nil.

(** ** The two cache entries *)

Definition logged (key : string) (w : world) : world :=
  World (clock w) (store w) (Produced key :: trace w).

(** ** The entry point: failures *)

(** A server that turns the token down, and one that cannot be reached. *)
Definition unauthorized : endpoint -> string -> response :=
  fun _ _ => HTTPError 401 "Bad credentials".
Definition unreachable : endpoint -> string -> response :=
  fun _ _ => URLError "timed out".

Definition conf_with_token : option string :=
  Some ("GITHUB_TOKEN=ghp_x" ++ NL ++ "COPILOT_QUOTA=300" ++ NL).

Definition waybar_args : args := Args true None None "~/.config/waybar-ai-usage/copilot.conf".
Definition cli_args : args := Args false None None "~/.config/waybar-ai-usage/copilot.conf".

(** ** Sample runs *)

(** Stand-ins for the two helpers of [common]: the ISO text as it is, and
    the template as it is. *)
Definition plain_eta : string -> string := fun iso => iso.
Definition plain_template : string -> list (string * json) -> result string :=
  fun template _ => Ok template.

Definition lines_400 : list string :=
  Eval vm_compute in
    match print_cli plain_eta used_400 300 mid_june with
    | Ok lines => lines
    | Raise _ => nil
    end.

Definition payload_400 : json :=
  Eval vm_compute in
    match print_waybar plain_eta plain_template used_400 300 None None mid_june with
    | Ok payload => payload
    | Raise _ => JNull
    end.



(** A server that knows the user and the three line items. *)
Definition octocat : json := JDict (("login", JStr "octocat") :: ("id", JNum (Py.Int 583231)) :: nil).

Definition github : endpoint -> string -> response :=
  fun url _ =>
    match url with
    | UserEndpoint => Body octocat
    | UsageEndpoint _ => Body (JList three_items)
    end.

Definition snapshot_3 : json :=
  JDict (("used", JNum used_3_5) :: ("raw", JList three_items) :: nil).

Definition warm : world := snd (get_copilot_usage github "ghp_x" cold).
Definition known : world := snd (_get_github_username github "ghp_x" cold).

Definition bad_credentials : exn :=
  Exn RuntimeError "HTTP 401: Bad credentials".
Definition timed_out : exn := Exn RuntimeError "Network error: timed out".

Definition after_failure : world :=
  World (clock cold) ∅
    (Requested UserEndpoint "ghp_x" :: Produced "copilot_user" :: Produced "copilot" :: nil).

Definition asked_user : world :=
  snd (_get_github_username (fun _ _ => Body empty_login) "ghp_x" cold).


(** The double nearest to the decimal [n / d]. *)
Definition dbl (n d : Z) : Py.float := Py.nearest_of_ratio n d.

(** ** Further notions *)

(** The requests that one fetch can add, latest first: none, the identity
    request alone, the usage request alone, or both; the usage request names
    a login that is not empty. *)
Definition request_shape (token : string) (rs : list event) : Prop :=
  rs = nil
  \/ rs = Requested UserEndpoint token :: nil
  \/ exists u,
       truthy u = true
       /\ (rs = Requested (UsageEndpoint u) token :: nil
           \/ rs = Requested (UsageEndpoint u) token :: Requested UserEndpoint token :: nil).



(** A text without white space. *)
Fixpoint no_space (s : string) : bool :=
  match s with
  | String c s' => negb (Str.isspace c) && no_space s'
  | EmptyString => true
  end.

(** A text without line boundaries. *)
Fixpoint no_linebreak (s : string) : bool :=
  match s with
  | String c s' => negb (Str.islinebreak c) && no_linebreak s'
  | EmptyString => true
  end.

(** The number that the digits of [u] spell after the digits read into
    [acc]. *)
Fixpoint uint_val (u : Decimal.uint) (acc : Z) : Z :=
  match u with
  | Decimal.Nil => acc
  | Decimal.D0 u' => uint_val u' (10 * acc + 0)
  | Decimal.D1 u' => uint_val u' (10 * acc + 1)
  | Decimal.D2 u' => uint_val u' (10 * acc + 2)
  | Decimal.D3 u' => uint_val u' (10 * acc + 3)
  | Decimal.D4 u' => uint_val u' (10 * acc + 4)
  | Decimal.D5 u' => uint_val u' (10 * acc + 5)
  | Decimal.D6 u' => uint_val u' (10 * acc + 6)
  | Decimal.D7 u' => uint_val u' (10 * acc + 7)
  | Decimal.D8 u' => uint_val u' (10 * acc + 8)
  | Decimal.D9 u' => uint_val u' (10 * acc + 9)
  end.


(** The world after a first run that found nothing in the cache and got
    both answers: the two entries with their lifetimes, and the two
    requests, the identity request first. *)
Definition after_cold_run (token : string) (data username snapshot : json) (w : world) : world :=
  World (clock w)
    (<["copilot" := CacheEntry snapshot (clock w) DEFAULT_TTL]>
       (<["copilot_user" := CacheEntry data (clock w) 3600]> (store w)))
    (Requested (UsageEndpoint username) token :: Requested UserEndpoint token
       :: Produced "copilot_user" :: Produced "copilot" :: trace w).

(** The years of [datetime], and the check that each is written with four
    digits. *)
Definition all_years : list Z := map Z.of_nat (seq 1 (Z.to_nat MAXYEAR)).

Definition four_digits (y : Z) : bool :=
  Nat.eqb (String.length (zero_pad 4 y)) 4.

Definition all_months : list Z := map Z.of_nat (seq 1 12).

Definition two_digits (m : Z) : bool :=
  Nat.eqb (String.length (zero_pad 2 m)) 2.

(** The names that a template of [print_waybar] can refer to. *)
Definition template_keys : list string :=
  "icon" :: "icon_plain" :: "time_icon" :: "time_icon_plain" :: "used" :: "used_str"
  :: "quota" :: "pct" :: "reset" :: nil.

(** ** Further sample data *)

Definition known_later : world := at_time (clock cold + 100) known.

(** The largest finite double is about 1.8e308; two quantities of 1e308
    add up to infinity. *)
Definition huge_item : json := line_item (10 ^ 308) 1.

Definition overflowing : endpoint -> string -> response :=
  fun url _ =>
    match url with
    | UserEndpoint => Body octocat
    | UsageEndpoint _ => Body (JList (huge_item :: huge_item :: nil))
    end.

Definition infinity : Py.float := S754_infinity false.

Definition after_overflow : world := snd (fetch_used overflowing "ghp_x" cold).

Definition no_items_answer : list (string * json) := ("timePeriod", JNull) :: nil.

Definition text_item : json := JDict (("grossQuantity", JStr "many") :: nil).


Definition no_get : exn := Exn AttributeError "'str' object has no attribute 'get'".


(** The structured output for 3.5 of 300 with a text template, and with no
    template at all. *)
Definition payload_templated : json :=
  Eval vm_compute in
    match print_waybar plain_eta plain_template used_3_5 300 (Some "{pct}%") None mid_june with
    | Ok payload => payload
    | Raise _ => JNull
    end.

Definition payload_default : json :=
  Eval vm_compute in
    match print_waybar plain_eta plain_template used_3_5 300 None None mid_june with
    | Ok payload => payload
    | Raise _ => JNull
    end.

(** * Properties *)

(** ** The number model on known values *)

Example repr_known_values :
  map Repr.of_float
    (dbl 35 10 :: dbl 1 10 :: Py.fadd (dbl 1 10) (dbl 2 10) :: dbl 2 3
     :: dbl 100 1 :: dbl (10 ^ 16) 1 :: dbl 1 100000 :: dbl (-7) 2 :: nil)
  = "3.5" :: "0.1" :: "0.30000000000000004" :: "0.6666666666666666"
    :: "100.0" :: "1e+16" :: "1e-05" :: "-3.5" :: nil.
Proof. vm_compute. reflexivity. Qed.

Example round1_known_values :
  map (fun x => Repr.of_num (Py.round1 (Py.Float x)))
    (dbl 345 100 :: dbl 25 100 :: dbl 35 100 :: dbl 2675 1000 :: dbl (-4) 100 :: nil)
  = "3.5" :: "0.2" :: "0.3" :: "2.7" :: "-0.0" :: nil.
Proof. vm_compute. reflexivity. Qed.

Example round_known_values :
  map (fun x => Py.round (Py.Float x)) (dbl 5 10 :: dbl 15 10 :: dbl 25 10 :: dbl (-25) 10 :: nil)
  = Ok 0 :: Ok 2 :: Ok 2 :: Ok (-2) :: nil.
Proof. vm_compute. reflexivity. Qed.

(** ** Severity tiers *)

Lemma cls_of_tier pct : cls_of pct = "copilot-" ++ tier_name (tier_of pct).
Proof.
  unfold cls_of, tier_of.
  destruct (pct <? 50); [reflexivity|].
  destruct (pct <? 80); reflexivity.
Qed.

Lemma tier_of_low pct : tier_of pct = low <-> pct < 50.
Proof.
  unfold tier_of.
  destruct (Z.ltb_spec pct 50); [tauto|].
  destruct (Z.ltb_spec pct 80); split; (discriminate || lia).
Qed.

Lemma tier_of_mid pct : tier_of pct = mid <-> 50 <= pct < 80.
Proof.
  unfold tier_of.
  destruct (Z.ltb_spec pct 50); [split; [discriminate | lia]|].
  destruct (Z.ltb_spec pct 80); split; (discriminate || lia || auto).
Qed.

Lemma tier_of_high pct : tier_of pct = high <-> 80 <= pct.
Proof.
  unfold tier_of.
  destruct (Z.ltb_spec pct 50); [split; [discriminate | lia]|].
  destruct (Z.ltb_spec pct 80); split; (discriminate || lia || auto).
Qed.

Section OutputFacts.

Variable format_eta : string -> string.
Variable format_output : string -> list (string * json) -> result string.

(** Every payload of [print_waybar] carries the clamped percentage, and its
    class is computed from that same number. *)
Lemma print_waybar_fields used quota fmt tip now payload :
  print_waybar format_eta format_output used quota fmt tip now = Ok payload ->
  exists raw,
    raw_pct used quota = Ok raw
    /\ field "percentage" payload = Some (JNum (Py.Int (Z.min raw 100)))
    /\ field "class" payload = Some (JStr (cls_of (Z.min raw 100))).
Proof.
  unfold print_waybar. intros H.
  destruct (raw_pct used quota) as [raw|]; [|discriminate]. cbn [rbind] in H.
  destruct (_next_month_reset_iso now); [|discriminate]. cbn [rbind] in H.
  destruct (used_str_of used); [|discriminate]. cbn [rbind] in H.
  match type of H with rbind ?t _ = _ => destruct t; [|discriminate] end.
  cbn [rbind] in H.
  match type of H with rbind ?t _ = _ => destruct t; [|discriminate] end.
  cbn [rbind] in H. injection H as <-.
  exists raw. repeat split; reflexivity.
Qed.

End OutputFacts.

(** C4: the tier is low exactly below 50, mid exactly from 50 to 79 and
    high exactly from 80 on; the class of the structured output is the name
    of the tier of the displayed percentage with the prefix "copilot-". *)
Theorem C4_tier_boundaries :
  (forall pct : Z,
      (tier_of pct = low <-> pct < 50)
      /\ (tier_of pct = mid <-> 50 <= pct < 80)
      /\ (tier_of pct = high <-> 80 <= pct)
      /\ cls_of pct = "copilot-" ++ tier_name (tier_of pct))
  /\ tier_of 49 = low /\ tier_of 50 = mid /\ tier_of 79 = mid /\ tier_of 80 = high
  /\ (forall format_eta format_output used quota fmt tip now payload,
         print_waybar format_eta format_output used quota fmt tip now = Ok payload ->
         exists pct,
           field "percentage" payload = Some (JNum (Py.Int pct))
           /\ field "class" payload
              = Some (JStr ("copilot-" ++ tier_name (tier_of pct)))).
Proof.
  split; [|repeat split; try reflexivity].
  - intros pct. split; [apply tier_of_low|]. split; [apply tier_of_mid|].
    split; [apply tier_of_high | apply cls_of_tier].
  - intros fe fo used quota fmt tip now payload H.
    destruct (print_waybar_fields fe fo _ _ _ _ _ _ H) as (raw & _ & Hp & Hc).
    exists (Z.min raw 100). split; [exact Hp|].
    rewrite Hc, cls_of_tier. reflexivity.
Qed.

(** ** The reset instant *)

Lemma valid_datetime_bounds t :
  valid_datetime t = true ->
  MINYEAR <= year t <= MAXYEAR /\ 1 <= month t <= 12.
Proof.
  unfold valid_datetime. intros H.
  repeat (apply andb_prop in H; destruct H as [H ?]).
  lia.
Qed.

Lemma mk_datetime_first y m :
  MINYEAR <= y <= MAXYEAR -> 1 <= m <= 12 ->
  mk_datetime y m 1 = Ok (DateTime y m 1 0 0 0 0).
Proof.
  intros Hy Hm. unfold mk_datetime.
  replace ((MINYEAR <=? y) && (y <=? MAXYEAR)) with true
    by (symmetry; apply andb_true_intro; split; lia).
  replace ((1 <=? m) && (m <=? 12)) with true
    by (symmetry; apply andb_true_intro; split; lia).
  assert (Hd : 28 <= days_in_month y m).
  { unfold days_in_month.
    repeat match goal with |- context [if ?b then _ else _] => destruct b end; lia. }
  replace ((1 <=? 1) && (1 <=? days_in_month y m)) with true
    by (symmetry; apply andb_true_intro; split; lia).
  reflexivity.
Qed.

Lemma valid_first_of_month y m :
  MINYEAR <= y <= MAXYEAR -> 1 <= m <= 12 ->
  valid_datetime (DateTime y m 1 0 0 0 0) = true.
Proof.
  intros Hy Hm. unfold valid_datetime. cbn [year month day hour minute second microsecond].
  assert (Hd : 28 <= days_in_month y m).
  { unfold days_in_month.
    repeat match goal with |- context [if ?b then _ else _] => destruct b end; lia. }
  repeat (apply andb_true_intro; split); lia.
Qed.

(** C5, as the code has it: from every instant that the clock can show,
    December 9999 apart, the reset instant is midnight of the first day of
    the following calendar month, December rolling over to January of the
    next year; its ISO text carries the UTC offset. *)
Theorem C5_reset_instant (now : datetime) :
  valid_datetime now = true ->
  last_month now = false ->
  exists reset,
    next_month_reset now = Ok reset
    /\ _next_month_reset_iso now = Ok (isoformat reset)
    /\ month_index reset = month_index now + 1
    /\ 1 <= month reset <= 12
    /\ day reset = 1
    /\ is_midnight reset = true
    /\ valid_datetime reset = true
    /\ (if month now =? 12
        then year reset = year now + 1 /\ month reset = 1
        else year reset = year now /\ month reset = month now + 1).
Proof.
  intros Hv Hl.
  destruct (valid_datetime_bounds _ Hv) as [Hy Hm].
  unfold last_month in Hl. apply andb_false_iff in Hl.
  unfold _next_month_reset_iso, next_month_reset, month_index.
  destruct (Z.eqb_spec (month now) 12) as [H12|H12].
  - assert (Hy' : year now <> MAXYEAR).
    { destruct Hl as [Hl|Hl]; [apply Z.eqb_neq in Hl; exact Hl | discriminate]. }
    exists (DateTime (year now + 1) 1 1 0 0 0 0).
    rewrite mk_datetime_first by (unfold MINYEAR, MAXYEAR in *; lia).
    cbn [rmap rbind year month day].
    repeat split; try reflexivity; try lia.
    apply valid_first_of_month; unfold MINYEAR, MAXYEAR in *; lia.
  - exists (DateTime (year now) (month now + 1) 1 0 0 0 0).
    rewrite mk_datetime_first by lia.
    cbn [rmap rbind year month day].
    repeat split; try reflexivity; try lia.
    apply valid_first_of_month; lia.
Qed.

Lemma C5_reset_instant_witness :
  exists reset,
    next_month_reset (DateTime 2024 12 15 10 30 0 0) = Ok reset
    /\ _next_month_reset_iso (DateTime 2024 12 15 10 30 0 0) = Ok (isoformat reset)
    /\ month_index reset = month_index (DateTime 2024 12 15 10 30 0 0) + 1
    /\ 1 <= month reset <= 12
    /\ day reset = 1
    /\ is_midnight reset = true
    /\ valid_datetime reset = true
    /\ (year reset = 2024 + 1 /\ month reset = 1).
Proof.
  apply (C5_reset_instant (DateTime 2024 12 15 10 30 0 0)); reflexivity.
Defined.

(** C5, as the claim words it, fails in the last month of the calendar:
    [datetime] has no year 10000, so no reset instant is computed. *)
Lemma C5_december_9999 :
  valid_datetime (DateTime 9999 12 15 0 0 0 0) = true
  /\ next_month_reset (DateTime 9999 12 15 0 0 0 0)
     = Raise (Exn ValueError "year 10000 is out of range")
  /\ ~ exists reset, next_month_reset (DateTime 9999 12 15 0 0 0 0) = Ok reset.
Proof.
  split; [reflexivity|]. split; [reflexivity|].
  intros [reset H]. vm_compute in H. discriminate.
Qed.

Example reset_2024_12_15 :
  _next_month_reset_iso (DateTime 2024 12 15 10 30 0 0) = Ok "2025-01-01T00:00:00+00:00".
Proof. reflexivity. Qed.

Example reset_2024_06_15 :
  _next_month_reset_iso (DateTime 2024 6 15 23 59 59 999999) = Ok "2024-07-01T00:00:00+00:00".
Proof. reflexivity. Qed.

(** ** The percentage *)

Lemma binary_round_aux_not_negative mx ex lx :
  not_negative (binary_round_aux Py.prec Py.emax false mx ex lx) = true.
Proof.
  unfold binary_round_aux.
  destruct (shr_fexp Py.prec Py.emax mx ex lx) as [mrs' e'].
  destruct (shr_fexp Py.prec Py.emax _ e' loc_Exact) as [mrs'' e''].
  destruct (shr_m mrs''); [reflexivity| |reflexivity].
  destruct (e'' <=? Py.emax - Py.prec); reflexivity.
Qed.

Lemma nearest_of_Z_not_negative n :
  0 < n -> not_negative (Py.nearest_of_Z n) = true.
Proof.
  destruct n as [|p|p]; try lia. intros _.
  unfold Py.nearest_of_Z, binary_normalize, binary_round.
  destruct (shl_align p 0 _) as [mz ez].
  apply binary_round_aux_not_negative.
Qed.

Lemma fdiv_not_negative x y :
  not_negative x = true -> not_negative y = true -> Py.is_zero y = false ->
  not_negative (Py.fdiv x y) = true.
Proof.
  unfold Py.fdiv.
  destruct x as [sx|sx| |sx mx ex], y as [sy|sy| |sy my ey];
    cbn [not_negative Py.is_zero SFdiv]; intros Hx Hy Hz;
    try discriminate; try reflexivity;
    try (apply negb_true_iff in Hx; subst sx);
    try (apply negb_true_iff in Hy; subst sy);
    try reflexivity.
  destruct (SFdiv_core_binary _ _ _ _ _ _) as [[mz ez] lz].
  apply binary_round_aux_not_negative.
Qed.

Lemma fmul_not_negative x y :
  not_negative x = true -> not_negative y = true ->
  not_negative (Py.fmul x y) = true.
Proof.
  unfold Py.fmul.
  destruct x as [sx|sx| |sx mx ex], y as [sy|sy| |sy my ey];
    cbn [not_negative SFmul]; intros Hx Hy;
    try reflexivity;
    try (apply negb_true_iff in Hx; subst sx);
    try (apply negb_true_iff in Hy; subst sy);
    try reflexivity.
  apply binary_round_aux_not_negative.
Qed.

Lemma div_half_even_nonneg a b : 0 <= a -> 0 < b -> 0 <= Py.div_half_even a b.
Proof.
  intros Ha Hb. unfold Py.div_half_even.
  assert (0 <= a / b) by (apply Z.div_pos; lia).
  destruct (2 * (a mod b) ?= b); [destruct (Z.even (a / b))| |]; lia.
Qed.

Lemma round_not_negative x p :
  not_negative x = true -> Py.round (Py.Float x) = Ok p -> 0 <= p.
Proof.
  destruct x as [s|s| |s m e]; cbn [Py.round not_negative]; intros Hx H;
    try discriminate.
  - vm_compute in H. injection H as <-. lia.
  - apply negb_true_iff in Hx. subst s.
    unfold Py.to_ratio in H.
    destruct (0 <=? e) eqn:He; injection H as <-; apply div_half_even_nonneg;
      lia.
Qed.

Lemma nonneg_float_not_negative x :
  nonneg (Py.Float x) = true -> not_negative x = true.
Proof.
  destruct x as [s|[]| |[] m e]; cbn; intros H; try reflexivity; discriminate.
Qed.

Lemma truediv_not_negative used quota q :
  nonneg used = true -> 0 < quota ->
  Py.truediv used (Py.Int quota) = Ok q -> not_negative q = true.
Proof.
  intros Hu Hq. destruct used as [n|x]; cbn [Py.truediv nonneg] in *.
  - destruct (Z.eqb_spec quota 0); [lia|].
    destruct (Z.ltb_spec 0 quota); [|lia].
    apply Z.leb_le in Hu.
    assert (Hr : not_negative (Py.nearest_of_ratio n quota) = true).
    { unfold Py.nearest_of_ratio.
      destruct n as [|a|a], quota as [|b|b]; try lia; try reflexivity.
      unfold Py.fdiv, SFdiv.
      destruct (SFdiv_core_binary _ _ _ _ _ _) as [[mz ez] lz].
      apply binary_round_aux_not_negative. }
    destruct (Py.nearest_of_ratio n quota); intros Hres; try discriminate;
      injection Hres as <-; exact Hr.
  - pose proof (nearest_of_Z_not_negative quota Hq) as Hy.
    unfold Py.float_of_int.
    destruct (Py.nearest_of_Z quota) as [sy|sy| |sy my ey] eqn:E;
      cbn [rbind Py.is_zero]; intros Hres; try discriminate;
      injection Hres as <-;
      (apply fdiv_not_negative;
       [apply nonneg_float_not_negative; exact Hu | exact Hy | reflexivity]).
Qed.

(** For a usage that is not negative the raw percentage is not negative. *)
Lemma raw_pct_nonneg used quota p :
  nonneg used = true -> raw_pct used quota = Ok p -> 0 <= p.
Proof.
  intros Hu. unfold raw_pct.
  destruct (Z.ltb_spec 0 quota) as [Hq|Hq]; [|intros H; injection H as <-; lia].
  unfold percentage_formula.
  destruct (Py.truediv used (Py.Int quota)) as [q|] eqn:Eq; [|discriminate].
  cbn [rbind Py.mul].
  pose proof (truediv_not_negative _ _ _ Hu Hq Eq) as Hqn.
  unfold Py.float_of_int.
  destruct (Py.nearest_of_Z 100) as [sy|sy| |sy my ey] eqn:E;
    cbn [rbind]; try discriminate; intros H;
    (eapply round_not_negative; [|exact H]);
    (apply fmul_not_negative; [exact Hqn|]);
    rewrite <- E; apply nearest_of_Z_not_negative; lia.
Qed.

Section PercentageFacts.

Variable format_eta : string -> string.
Variable format_output : string -> list (string * json) -> result string.

Lemma print_cli_lines used quota now lines :
  print_cli format_eta used quota now = Ok lines ->
  exists raw,
    raw_pct used quota = Ok raw
    /\ nth_error lines 2 = Some (used_line used quota raw).
Proof.
  unfold print_cli. intros H.
  destruct (raw_pct used quota) as [raw|]; [|discriminate]. cbn [rbind] in H.
  destruct (_next_month_reset_iso now); [|discriminate]. cbn [rbind] in H.
  injection H as <-. exists raw. split; reflexivity.
Qed.

Lemma raw_pct_formula used quota p :
  raw_pct used quota = Ok p ->
  if 0 <? quota then percentage_formula used quota = Ok p else p = 0.
Proof.
  unfold raw_pct. destruct (0 <? quota); [auto|]. intros H. injection H as <-.
  reflexivity.
Qed.

End PercentageFacts.

(** C1: the percentage on display is [round(used / quota * 100)] for a
    positive quota and 0 otherwise; the plain report shows this number as it
    is, the structured output shows it cut off at 100 (and, for a usage that
    is not negative, never below 0). With 400 used of 300 the plain report
    shows 133 and the structured output 100. *)
Theorem C1_percentage_display :
  forall (format_eta : string -> string)
         (format_output : string -> list (string * json) -> result string),
  (forall used quota now lines,
      print_cli format_eta used quota now = Ok lines ->
      exists p,
        (if 0 <? quota then percentage_formula used quota = Ok p else p = 0)
        /\ nth_error lines 2 = Some (used_line used quota p))
  /\ (forall used quota fmt tip now payload,
         print_waybar format_eta format_output used quota fmt tip now = Ok payload ->
         exists p,
           (if 0 <? quota then percentage_formula used quota = Ok p else p = 0)
           /\ field "percentage" payload = Some (JNum (Py.Int (Z.min p 100)))
           /\ Z.min p 100 <= 100
           /\ (nonneg used = true -> 0 <= Z.min p 100))
  /\ rmap (fun lines => nth_error lines 2) (print_cli format_eta used_400 300 mid_june)
     = Ok (Some "Used : 400.0 / 300 (133%)")
  /\ rmap (field "percentage")
       (print_waybar format_eta format_output used_400 300 None None mid_june)
     = Ok (Some (JNum (Py.Int 100))).
Proof.
  intros fe fo. split; [|split; [|split]].
  - intros used quota now lines H.
    destruct (print_cli_lines fe _ _ _ _ H) as (p & Hp & Hl).
    exists p. split; [apply raw_pct_formula; exact Hp | exact Hl].
  - intros used quota fmt tip now payload H.
    destruct (print_waybar_fields fe fo _ _ _ _ _ _ H) as (p & Hp & Hf & _).
    exists p. split; [apply raw_pct_formula; exact Hp|].
    split; [exact Hf|]. split; [lia|].
    intros Hu. pose proof (raw_pct_nonneg _ _ _ Hu Hp). lia.
  - vm_compute. reflexivity.
  - vm_compute. reflexivity.
Qed.

(** ** The configuration file *)

Lemma contains_char_partition c s acc :
  Str.contains (String c "") s = true <-> Str.partition_from c acc s <> None.
Proof.
  revert acc. induction s as [|d s IH]; intros acc; cbn.
  - split; [discriminate | congruence].
  - destruct (Ascii.eqb_spec d c) as [->|Hne].
    + destruct (ascii_dec c c); [|congruence].
      split; [discriminate | intros _; destruct s; reflexivity].
    + destruct (ascii_dec c d) as [E|_]; [congruence|]. cbn. apply IH.
Qed.

Lemma config_line_assign cfg line :
  config_line cfg line = assign cfg (assignment_of line).
Proof.
  unfold config_line, assignment_of, Str.partition.
  destruct (String.eqb (Str.strip line) ""); [reflexivity|]. cbn [orb].
  destruct (Str.startswith "#" (Str.strip line)); [reflexivity|].
  destruct (Str.partition_from "=" nil (Str.strip line)) as [[key v]|] eqn:E.
  - assert (Hc : Str.contains "=" (Str.strip line) = true).
    { apply (contains_char_partition _ _ nil). congruence. }
    rewrite Hc.
    destruct (String.eqb (Str.strip key) "GITHUB_TOKEN"); [reflexivity|].
    destruct (String.eqb (Str.strip key) "COPILOT_QUOTA"); [|reflexivity].
    destruct (Str.to_int (Str.strip v)); reflexivity.
  - destruct (Str.contains "=" (Str.strip line)) eqn:Hc; [|reflexivity].
    apply (contains_char_partition _ _ nil) in Hc. congruence.
Qed.



(** ** The used label *)












(** ** Running the pipeline *)

Section Runs.

Variable net : endpoint -> string -> response.

Lemma get_cached_hit key producer ttl w v :
  cached key w = Some v -> get_cached_or_fetch key producer ttl w = (Ok v, w).
Proof.
  unfold cached, get_cached_or_fetch.
  destruct (store w !! key) as [e|]; [|discriminate].
  destruct (fresh (clock w) e); [|discriminate].
  intros H. injection H as <-. reflexivity.
Qed.

Lemma get_cached_miss key producer ttl w :
  cached key w = None ->
  get_cached_or_fetch key producer ttl w = refresh key producer ttl w.
Proof.
  unfold cached, get_cached_or_fetch.
  destruct (store w !! key) as [e|]; [|reflexivity].
  destruct (fresh (clock w) e); [discriminate | reflexivity].
Qed.

Lemma github_get_run url token w :
  _github_get net url token w
  = (received (net url token),
     World (clock w) (store w) (Requested url token :: trace w)).
Proof. reflexivity. Qed.

Lemma get_github_username_run token w :
  _get_github_username net token w
  = match cached "copilot_user" w with
    | Some data => (username_of data, w)
    | None => (rbind (received (net UserEndpoint token)) username_of,
               after_user_request net token w)
    end.
Proof.
  unfold _get_github_username, bind.
  destruct (cached "copilot_user" w) as [data|] eqn:E.
  - rewrite (get_cached_hit _ _ _ _ _ E). reflexivity.
  - rewrite (get_cached_miss _ _ _ _ E).
    unfold refresh, bind, log, after_user_request. rewrite github_get_run.
    cbn [clock store trace].
    destruct (received (net UserEndpoint token)); reflexivity.
Qed.

Lemma fetch_uncached_run token w :
  _fetch_copilot_usage_uncached net token w
  = match _get_github_username net token w with
    | (Ok username, w') =>
        (rbind (received (net (UsageEndpoint username) token)) reduce_usage,
         after_usage_request username token w')
    | (Raise e, w') => (Raise e, w')
    end.
Proof.
  unfold _fetch_copilot_usage_uncached, bind.
  destruct (_get_github_username net token w) as [[username|e] w']; [|reflexivity].
  rewrite github_get_run. unfold after_usage_request.
  destruct (received _); reflexivity.
Qed.

(** The identity lookup does not move the clock, keeps the usage entry of
    the cache, and neither runs the usage producer nor addresses the usage
    endpoint. *)
Lemma get_github_username_frame token w r w' :
  _get_github_username net token w = (r, w') ->
  clock w' = clock w
  /\ store w' !! "copilot" = store w !! "copilot"
  /\ produced "copilot" (trace w') = produced "copilot" (trace w)
  /\ usage_requests (trace w') = usage_requests (trace w).
Proof.
  rewrite get_github_username_run.
  destruct (cached "copilot_user" w); intros H; injection H as <- <-.
  - repeat split.
  - unfold after_user_request. cbn [clock store trace].
    repeat split.
    destruct (received _); [|reflexivity].
    apply lookup_insert_ne. discriminate.
Qed.

Lemma fetch_uncached_frame token w r w' :
  _fetch_copilot_usage_uncached net token w = (r, w') ->
  clock w' = clock w
  /\ store w' !! "copilot" = store w !! "copilot"
  /\ produced "copilot" (trace w') = produced "copilot" (trace w).
Proof.
  rewrite fetch_uncached_run.
  destruct (_get_github_username net token w) as [[username|e] w1] eqn:E;
    intros H; injection H as <- <-;
    destruct (get_github_username_frame _ _ _ _ E) as (Hc & Hs & Hp & _).
  - unfold after_usage_request. cbn [clock store trace produced]. auto.
  - auto.
Qed.

End Runs.

(** ** The usage total *)

Lemma sum_gross_quantities items : forall acc qs,
  quantities items = Some qs -> sum_gross acc items = py_sum acc qs.
Proof.
  induction items as [|item rest IH]; intros acc qs H; cbn in H.
  - injection H as <-. reflexivity.
  - destruct (quantity item) as [q|] eqn:Eq; [|discriminate].
    destruct (quantities rest) as [qs'|] eqn:Eqs; [|discriminate].
    injection H as <-. cbn [sum_gross py_sum].
    destruct item as [| | | | |fields]; try discriminate.
    cbn [py_get rbind quantity] in *.
    assert (Hadd : py_add acc (from_option id (JNum (Py.Int 0))
                                 (dict_get "grossQuantity" fields)) = Py.add acc q).
    { unfold py_add. destruct (dict_get "grossQuantity" fields) as [v|]; cbn [from_option id].
      - rewrite Eq. reflexivity.
      - injection Eq as <-. reflexivity. }
    rewrite Hadd. destruct (Py.add acc q) as [acc'|]; [|reflexivity].
    cbn [rbind]. apply IH. reflexivity.
Qed.

Lemma reduce_usage_list items :
  reduce_usage (JList items)
  = (used <~ sum_gross (Py.Int 0) items ;;
     Ok (JDict (("used", JNum (Py.round1 used)) :: ("raw", JList items) :: nil))).
Proof. reflexivity. Qed.



(** ** Identity resolution *)

Lemma username_of_login data :
  username_of data
  = match login_of data with
    | Some v => if truthy v then Ok v else Raise identity_error
    | None => Raise identity_error
    end.
Proof.
  unfold username_of, login_of.
  destruct data as [| | | | |fields]; try reflexivity.
  destruct (dict_get "login" fields) as [v|]; cbn [from_option id]; [|reflexivity].
  destruct (truthy v); reflexivity.
Qed.

Lemma login_of_not_object data : is_object data = false -> login_of data = None.
Proof. destruct data; (reflexivity || discriminate). Qed.

(** C7, as the code has it: identity resolution stops with its error
    exactly when the answer is no object, or has no "login" field, or has
    one that is empty (null, false, zero, an empty text, list or object);
    otherwise the field is the identifier. When identity resolution fails,
    in whatever way, the usage fetch fails with the same error and the usage
    endpoint is not addressed. *)
Theorem C7_identity_error :
  (forall data,
      (username_of data = Raise identity_error
       <-> is_object data = false
           \/ login_of data = None
           \/ exists v, login_of data = Some v /\ truthy v = false)
      /\ (forall u, username_of data = Ok u <-> login_of data = Some u /\ truthy u = true))
  /\ (forall net token w e w',
         _get_github_username net token w = (Raise e, w') ->
         _fetch_copilot_usage_uncached net token w = (Raise e, w')
         /\ usage_requests (trace w') = usage_requests (trace w)).
Proof.
  split.
  - intros data. rewrite username_of_login. split.
    + split.
      * destruct (login_of data) as [v|] eqn:El; [|auto].
        destruct (truthy v) eqn:Et; [discriminate|]. intros _. right. right. eauto.
      * intros [H|[H|(v & H & Ht)]].
        -- rewrite (login_of_not_object _ H). reflexivity.
        -- rewrite H. reflexivity.
        -- rewrite H, Ht. reflexivity.
    + intros u. split.
      * destruct (login_of data) as [v|]; [|discriminate].
        destruct (truthy v) eqn:Et; [|discriminate].
        intros H. injection H as <-. auto.
      * intros [-> ->]. reflexivity.
  - intros net token w e w' H. split.
    + rewrite fetch_uncached_run, H. reflexivity.
    + apply (get_github_username_frame _ _ _ _ _ H).
Qed.

(** C7, as the claim words it, fails on an object whose "login" field is
    there but empty: resolution stops with the identity error all the same. *)
Lemma C7_empty_login :
  is_object empty_login = true
  /\ login_of empty_login = Some (JStr "")
  /\ username_of empty_login = Raise identity_error
  /\ fst (_get_github_username (fun _ _ => Body empty_login) "ghp_x" cold)
     = Raise identity_error.
Proof. repeat split. Qed.

(** ** The two cache entries *)

Section CacheRuns.

Variable net : endpoint -> string -> response.

Lemma get_copilot_usage_run token w :
  get_copilot_usage net token w
  = match cached "copilot" w with
    | Some v => (Ok v, w)
    | None =>
        match _fetch_copilot_usage_uncached net token (logged "copilot" w) with
        | (Ok v, w') =>
            (Ok v, World (clock w')
                     (<["copilot" := CacheEntry v (clock w') DEFAULT_TTL]> (store w'))
                     (trace w'))
        | (Raise e, w') => (Raise e, w')
        end
    end.
Proof.
  unfold get_copilot_usage.
  destruct (cached "copilot" w) as [v|] eqn:E.
  - apply get_cached_hit. exact E.
  - rewrite (get_cached_miss _ _ _ _ E). unfold refresh, bind, log, logged.
    destruct (_fetch_copilot_usage_uncached net token _) as [[v|e] w']; reflexivity.
Qed.

(** A usage fetch that missed the cache and succeeded: the producer ran
    once, and the snapshot is stored with the time of the fetch and the
    default lifetime. *)
Lemma usage_miss_success token w v w1 :
  cached "copilot" w = None ->
  get_copilot_usage net token w = (Ok v, w1) ->
  clock w1 = clock w
  /\ store w1 !! "copilot" = Some (CacheEntry v (clock w) DEFAULT_TTL)
  /\ produced "copilot" (trace w1) = S (produced "copilot" (trace w)).
Proof.
  intros Hm. rewrite get_copilot_usage_run, Hm.
  destruct (_fetch_copilot_usage_uncached net token _) as [[v'|e] w'] eqn:E;
    [|discriminate].
  destruct (fetch_uncached_frame _ _ _ _ _ E) as (Hc & _ & Hp).
  intros H. injection H as <- <-. cbn [clock store trace logged] in *.
  rewrite Hc. split; [reflexivity|]. split; [apply lookup_insert_eq | exact Hp].
Qed.

(** Whatever a usage fetch that misses the cache comes to, its producer
    runs once. *)
Lemma usage_miss_produces token w r w1 :
  cached "copilot" w = None ->
  get_copilot_usage net token w = (r, w1) ->
  produced "copilot" (trace w1) = S (produced "copilot" (trace w)).
Proof.
  intros Hm. rewrite get_copilot_usage_run, Hm.
  destruct (_fetch_copilot_usage_uncached net token _) as [[v'|e] w'] eqn:E;
    destruct (fetch_uncached_frame _ _ _ _ _ E) as (_ & _ & Hp);
    intros H; injection H as <- <-; exact Hp.
Qed.

Lemma cached_at_time key w t e :
  store w !! key = Some e ->
  cached key (at_time t w) = if t <? fetched_at e + ttl_seconds e then Some (value e) else None.
Proof. unfold cached, at_time, fresh. cbn [store clock]. intros ->. reflexivity. Qed.

End CacheRuns.

(** C3: the identity answer and the usage snapshot are cached under two keys,
    "copilot_user" with a lifetime of 3600 seconds and "copilot" with one
    of 60 seconds. For either key, a fetch that missed the cache and whose
    producer succeeded ran the producer once; a second fetch before the
    lifetime is over returns the cached value and runs nothing, a second
    fetch at or after that time runs the producer again. *)
Theorem C3_cache_lifetimes :
  (forall net token w v w1,
      cached "copilot_user" w = None ->
      cached "copilot" w = None ->
      get_copilot_usage net token w = (Ok v, w1) ->
      "copilot_user" <> "copilot"
      /\ (exists data, store w1 !! "copilot_user" = Some (CacheEntry data (clock w) 3600))
      /\ store w1 !! "copilot" = Some (CacheEntry v (clock w) 60))
  /\ (forall net net' token w v w1 t,
         cached "copilot" w = None ->
         get_copilot_usage net token w = (Ok v, w1) ->
         produced "copilot" (trace w1) = S (produced "copilot" (trace w))
         /\ (t < clock w + 60 ->
             get_copilot_usage net' token (at_time t w1) = (Ok v, at_time t w1))
         /\ (clock w + 60 <= t ->
             forall r w2,
               get_copilot_usage net' token (at_time t w1) = (r, w2) ->
               produced "copilot" (trace w2) = S (S (produced "copilot" (trace w)))))
  /\ (forall net net' token w data r w1 t,
         cached "copilot_user" w = None ->
         received (net UserEndpoint token) = Ok data ->
         _get_github_username net token w = (r, w1) ->
         produced "copilot_user" (trace w1) = S (produced "copilot_user" (trace w))
         /\ (t < clock w + 3600 ->
             _get_github_username net' token (at_time t w1) = (r, at_time t w1))
         /\ (clock w + 3600 <= t ->
             forall r2 w2,
               _get_github_username net' token (at_time t w1) = (r2, w2) ->
               produced "copilot_user" (trace w2)
               = S (S (produced "copilot_user" (trace w))))).
Proof.
  split; [|split].
  - intros net token w v w1 Hu Hm H.
    split; [discriminate|].
    destruct (usage_miss_success _ _ _ _ _ Hm H) as (_ & Hs & _).
    split; [|exact Hs].
    revert H. rewrite get_copilot_usage_run, Hm, fetch_uncached_run,
      get_github_username_run.
    replace (cached "copilot_user" (logged "copilot" w)) with (@None json)
      by (symmetry; exact Hu).
    unfold after_user_request.
    destruct (received (net UserEndpoint token)) as [data|]; [|discriminate].
    cbn [rbind]. destruct (username_of data) as [u|]; [|discriminate].
    destruct (rbind _ reduce_usage) as [v'|]; [|discriminate].
    intros H. injection H as <- <-. exists data.
    cbn [store clock logged after_usage_request].
    rewrite lookup_insert_ne by discriminate. apply lookup_insert_eq.
  - intros net net' token w v w1 t Hm H.
    destruct (usage_miss_success _ _ _ _ _ Hm H) as (Hc & Hs & Hp).
    split; [exact Hp|]. split.
    + intros Ht. rewrite get_copilot_usage_run, (cached_at_time _ _ _ _ Hs).
      cbn [fetched_at ttl_seconds value]. unfold DEFAULT_TTL.
      destruct (Z.ltb_spec t (clock w + 60)); [reflexivity | lia].
    + intros Ht r w2 H2.
      assert (Hm2 : cached "copilot" (at_time t w1) = None).
      { rewrite (cached_at_time _ _ _ _ Hs). cbn [fetched_at ttl_seconds].
        unfold DEFAULT_TTL. destruct (Z.ltb_spec t (clock w + 60)); [lia | reflexivity]. }
      rewrite (usage_miss_produces _ _ _ _ _ Hm2 H2). cbn [at_time trace].
      rewrite Hp. reflexivity.
  - intros net net' token w data r w1 t Hm Hd.
    rewrite get_github_username_run, Hm. unfold after_user_request. rewrite Hd.
    intros H. injection H as <- <-. cbn [rbind].
    set (w1 := World (clock w)
                 (<["copilot_user" := CacheEntry data (clock w) 3600]> (store w))
                 (Requested UserEndpoint token :: Produced "copilot_user" :: trace w)).
    assert (Hs : store w1 !! "copilot_user" = Some (CacheEntry data (clock w) 3600))
      by apply lookup_insert_eq.
    split; [reflexivity|]. split.
    + intros Ht. rewrite get_github_username_run, (cached_at_time _ _ _ _ Hs).
      cbn [fetched_at ttl_seconds value].
      destruct (Z.ltb_spec t (clock w + 3600)); [reflexivity | lia].
    + intros Ht r2 w2. rewrite get_github_username_run, (cached_at_time _ _ _ _ Hs).
      cbn [fetched_at ttl_seconds value].
      destruct (Z.ltb_spec t (clock w + 3600)); [lia|].
      intros H2. injection H2 as <- <-. reflexivity.
Qed.

(** ** The entry point: failures *)

Lemma short_err_auth msg :
  short_err_of msg = "Auth Err"
  <-> Str.contains "401" msg = true \/ Str.contains "403" msg = true.
Proof.
  unfold short_err_of.
  destruct (Str.contains "401" msg), (Str.contains "403" msg); cbn;
    split; auto; try discriminate; intros [H|H]; discriminate.
Qed.

Lemma short_err_net msg :
  short_err_of msg = "Net Err"
  <-> Str.contains "401" msg = false /\ Str.contains "403" msg = false.
Proof.
  unfold short_err_of.
  destruct (Str.contains "401" msg), (Str.contains "403" msg); cbn;
    split; auto; try discriminate; intros [H1 H2]; discriminate.
Qed.

(** C6: in structured mode every failure of the fetch pipeline ends in one
    error payload on the standard output and the exit code 0; the payload
    says "Auth Err" exactly when the text of the error contains "401" or
    "403", and "Net Err" otherwise. *)
Theorem C6_structured_failure :
  (forall format_eta format_output net a file now w token e w',
      waybar a = true ->
      given (GITHUB_TOKEN (load_copilot_config file)) = Some token ->
      fetch_used net token w = (Raise e, w') ->
      main format_eta format_output net a file now w
      = (Outcome (Json (error_payload e) :: nil) nil 0, w')
      /\ field "text" (error_payload e)
         = Some (JStr ("<span foreground='#ff5555'>" ++ COPILOT_ICON ++ " "
                       ++ short_err_of (exn_msg e) ++ "</span>"))
      /\ field "class" (error_payload e) = Some (JStr "critical"))
  /\ (forall msg,
         (short_err_of msg = "Auth Err"
          <-> Str.contains "401" msg = true \/ Str.contains "403" msg = true)
         /\ (short_err_of msg = "Net Err"
             <-> Str.contains "401" msg = false /\ Str.contains "403" msg = false)).
Proof.
  split.
  - intros fe fo net a file now w token e w' Hw Ht Hf.
    unfold main. rewrite Ht, Hf, Hw. repeat split.
  - intros msg. split; [apply short_err_auth | apply short_err_net].
Qed.

Lemma no_token_message_differs path msg :
  "[!] Error: No GITHUB_TOKEN in " ++ path <> "[!] Critical Error: " ++ msg.
Proof.
  intros H. apply (f_equal (String.get 4)) in H. vm_compute in H. discriminate.
Qed.

Lemma no_token_payload_differs a e : no_token_payload a <> error_payload e.
Proof.
  intros H.
  apply (f_equal (fun j => match field "text" j with
                           | Some (JStr s) => String.get 36 s
                           | _ => None
                           end)) in H.
  unfold error_payload, short_err_of in H.
  destruct (_ || _); vm_compute in H; discriminate.
Qed.

(** C8: without a credential (no file, no token line, or an empty token)
    the program stops before the pipeline starts: the world is as it was, so
    nothing has been requested. In plain mode it writes its message to the
    standard error and exits with 1, in structured mode it prints the
    "No Token" payload and exits with 0; neither can be taken for the
    report of a failed remote call. *)
Theorem C8_missing_credential :
  (forall format_eta format_output net a file now w,
      given (GITHUB_TOKEN (load_copilot_config file)) = None ->
      main format_eta format_output net a file now w
      = (if waybar a
         then Outcome (Json (no_token_payload a) :: nil) nil 0
         else Outcome nil (Text ("[!] Error: No GITHUB_TOKEN in " ++ config_path a) :: nil) 1,
         w)
      /\ requests (trace (snd (main format_eta format_output net a file now w))) = requests (trace w)
      /\ (forall e,
             Text ("[!] Error: No GITHUB_TOKEN in " ++ config_path a)
             <> Text ("[!] Critical Error: " ++ exn_msg e))
      /\ (forall e, Json (no_token_payload a) <> Json (error_payload e)))
  /\ given (GITHUB_TOKEN (load_copilot_config None)) = None
  /\ given (GITHUB_TOKEN (load_copilot_config (Some ("GITHUB_TOKEN=" ++ NL)))) = None.
Proof.
  split; [|split; reflexivity].
  intros fe fo net a file now w Ht.
  assert (Hm : main fe fo net a file now w
               = (if waybar a
                  then Outcome (Json (no_token_payload a) :: nil) nil 0
                  else Outcome nil
                         (Text ("[!] Error: No GITHUB_TOKEN in " ++ config_path a) :: nil) 1,
                  w)).
  { unfold main. rewrite Ht. destruct (waybar a); reflexivity. }
  split; [exact Hm|]. split; [rewrite Hm; reflexivity|]. split.
  - intros e H. apply (no_token_message_differs (config_path a) (exn_msg e)).
    exact (f_equal (fun p => match p with Text s => s | _ => "" end) H).
  - intros e H. apply (no_token_payload_differs a e).
    exact (f_equal (fun p => match p with Json j => j | _ => JNull end) H).
Qed.

(** ** The theorems at work on concrete runs *)

Lemma C1_percentage_display_witness :
  print_cli plain_eta used_400 300 mid_june = Ok lines_400
  /\ (exists p,
         percentage_formula used_400 300 = Ok p
         /\ nth_error lines_400 2 = Some (used_line used_400 300 p))
  /\ print_waybar plain_eta plain_template used_400 300 None None mid_june = Ok payload_400
  /\ nonneg used_400 = true
  /\ (exists p,
         percentage_formula used_400 300 = Ok p
         /\ field "percentage" payload_400 = Some (JNum (Py.Int (Z.min p 100)))
         /\ Z.min p 100 <= 100
         /\ 0 <= Z.min p 100).
Proof.
  destruct (C1_percentage_display plain_eta plain_template) as (Hcli & Hbar & _).
  assert (Hl : print_cli plain_eta used_400 300 mid_june = Ok lines_400)
    by (vm_compute; reflexivity).
  assert (Hp : print_waybar plain_eta plain_template used_400 300 None None mid_june
               = Ok payload_400) by (vm_compute; reflexivity).
  split; [exact Hl|]. split; [exact (Hcli _ _ _ _ Hl)|].
  split; [exact Hp|]. split; [reflexivity|].
  destruct (Hbar _ _ _ _ _ _ Hp) as (p & Hf & Hpct & Hle & Hge).
  exists p. split; [exact Hf|]. split; [exact Hpct|].
  split; [exact Hle | apply Hge; reflexivity].
Defined.


Lemma C3_cache_lifetimes_witness :
  (cached "copilot_user" cold = None
   /\ cached "copilot" cold = None
   /\ get_copilot_usage github "ghp_x" cold = (Ok snapshot_3, warm)
   /\ (exists data, store warm !! "copilot_user" = Some (CacheEntry data (clock cold) 3600))
   /\ store warm !! "copilot" = Some (CacheEntry snapshot_3 (clock cold) 60))
  /\ (produced "copilot" (trace warm) = 1%nat
      /\ clock cold + 59 < clock cold + 60
      /\ get_copilot_usage unreachable "ghp_x" (at_time (clock cold + 59) warm)
         = (Ok snapshot_3, at_time (clock cold + 59) warm)
      /\ clock cold + 60 <= clock cold + 60
      /\ produced "copilot"
           (trace (snd (get_copilot_usage unreachable "ghp_x" (at_time (clock cold + 60) warm))))
         = 2%nat)
  /\ (received (github UserEndpoint "ghp_x") = Ok octocat
      /\ _get_github_username github "ghp_x" cold = (Ok (JStr "octocat"), known)
      /\ produced "copilot_user" (trace known) = 1%nat
      /\ _get_github_username unreachable "ghp_x" (at_time (clock cold + 3599) known)
         = (Ok (JStr "octocat"), at_time (clock cold + 3599) known)
      /\ produced "copilot_user"
           (trace (snd (_get_github_username unreachable "ghp_x"
                          (at_time (clock cold + 3600) known))))
         = 2%nat).
Proof.
  destruct C3_cache_lifetimes as (Hkeys & Husage & Huser).
  assert (Hu : cached "copilot_user" cold = None) by reflexivity.
  assert (Hm : cached "copilot" cold = None) by reflexivity.
  assert (Hrun : get_copilot_usage github "ghp_x" cold = (Ok snapshot_3, warm))
    by (vm_compute; reflexivity).
  assert (Hd : received (github UserEndpoint "ghp_x") = Ok octocat) by reflexivity.
  assert (Hid : _get_github_username github "ghp_x" cold = (Ok (JStr "octocat"), known))
    by (vm_compute; reflexivity).
  split; [|split].
  - destruct (Hkeys github "ghp_x" cold snapshot_3 warm Hu Hm Hrun) as (_ & He & Hs).
    split; [exact Hu|]. split; [exact Hm|]. split; [exact Hrun|].
    split; [exact He | exact Hs].
  - destruct (Husage github unreachable "ghp_x" cold snapshot_3 warm (clock cold + 59) Hm Hrun)
      as (Hp & Hin & _).
    destruct (Husage github unreachable "ghp_x" cold snapshot_3 warm (clock cold + 60) Hm Hrun)
      as (_ & _ & Hout).
    split; [exact Hp|]. split; [lia|]. split; [apply Hin; lia|]. split; [lia|].
    apply (Hout ltac:(lia) (fst (get_copilot_usage unreachable "ghp_x"
                                   (at_time (clock cold + 60) warm)))).
    apply surjective_pairing.
  - destruct (Huser github unreachable "ghp_x" cold octocat _ known (clock cold + 3599) Hu Hd Hid)
      as (Hp & Hin & _).
    destruct (Huser github unreachable "ghp_x" cold octocat _ known (clock cold + 3600) Hu Hd Hid)
      as (_ & _ & Hout).
    split; [exact Hd|]. split; [exact Hid|]. split; [exact Hp|].
    split; [apply Hin; lia|].
    apply (Hout ltac:(lia) (fst (_get_github_username unreachable "ghp_x"
                                   (at_time (clock cold + 3600) known)))).
    apply surjective_pairing.
Defined.

Lemma C4_tier_boundaries_witness :
  print_waybar plain_eta plain_template used_400 300 None None mid_june = Ok payload_400
  /\ exists pct,
       field "percentage" payload_400 = Some (JNum (Py.Int pct))
       /\ field "class" payload_400 = Some (JStr ("copilot-" ++ tier_name (tier_of pct))).
Proof.
  assert (Hp : print_waybar plain_eta plain_template used_400 300 None None mid_june
               = Ok payload_400) by (vm_compute; reflexivity).
  split; [exact Hp|].
  destruct C4_tier_boundaries as (_ & _ & _ & _ & _ & Hcls).
  exact (Hcls _ _ _ _ _ _ _ _ Hp).
Defined.

Lemma C6_structured_failure_witness :
  (waybar waybar_args = true
   /\ given (GITHUB_TOKEN (load_copilot_config conf_with_token)) = Some "ghp_x"
   /\ fetch_used unauthorized "ghp_x" cold = (Raise bad_credentials, after_failure)
   /\ main plain_eta plain_template unauthorized waybar_args conf_with_token mid_june cold
      = (Outcome (Json (error_payload bad_credentials) :: nil) nil 0, after_failure)
   /\ Str.contains "401" (exn_msg bad_credentials) = true
   /\ short_err_of (exn_msg bad_credentials) = "Auth Err")
  /\ (fetch_used unreachable "ghp_x" cold = (Raise timed_out, after_failure)
      /\ main plain_eta plain_template unreachable waybar_args conf_with_token mid_june cold
         = (Outcome (Json (error_payload timed_out) :: nil) nil 0, after_failure)
      /\ Str.contains "401" (exn_msg timed_out) = false
      /\ Str.contains "403" (exn_msg timed_out) = false
      /\ short_err_of (exn_msg timed_out) = "Net Err").
Proof.
  destruct C6_structured_failure as (Hmain & Hcls).
  assert (Hw : waybar waybar_args = true) by reflexivity.
  assert (Ht : given (GITHUB_TOKEN (load_copilot_config conf_with_token)) = Some "ghp_x")
    by (vm_compute; reflexivity).
  assert (H401 : fetch_used unauthorized "ghp_x" cold = (Raise bad_credentials, after_failure))
    by (vm_compute; reflexivity).
  assert (Hto : fetch_used unreachable "ghp_x" cold = (Raise timed_out, after_failure))
    by (vm_compute; reflexivity).
  assert (Hc : Str.contains "401" (exn_msg bad_credentials) = true) by reflexivity.
  assert (Hn1 : Str.contains "401" (exn_msg timed_out) = false) by reflexivity.
  assert (Hn3 : Str.contains "403" (exn_msg timed_out) = false) by reflexivity.
  split.
  - split; [exact Hw|]. split; [exact Ht|]. split; [exact H401|].
    split; [exact (proj1 (Hmain plain_eta plain_template unauthorized waybar_args
                            conf_with_token mid_june cold "ghp_x" bad_credentials
                            after_failure Hw Ht H401))|].
    split; [exact Hc|].
    apply (proj1 (Hcls (exn_msg bad_credentials))). left. exact Hc.
  - split; [exact Hto|].
    split; [exact (proj1 (Hmain plain_eta plain_template unreachable waybar_args
                            conf_with_token mid_june cold "ghp_x" timed_out
                            after_failure Hw Ht Hto))|].
    split; [exact Hn1|]. split; [exact Hn3|].
    apply (proj2 (Hcls (exn_msg timed_out))). split; [exact Hn1 | exact Hn3].
Defined.

Lemma C7_identity_error_witness :
  (login_of empty_login = Some (JStr "") /\ truthy (JStr "") = false
   /\ username_of empty_login = Raise identity_error)
  /\ (login_of octocat = Some (JStr "octocat") /\ truthy (JStr "octocat") = true
      /\ username_of octocat = Ok (JStr "octocat"))
  /\ (_get_github_username (fun _ _ => Body empty_login) "ghp_x" cold
      = (Raise identity_error, asked_user)
      /\ _fetch_copilot_usage_uncached (fun _ _ => Body empty_login) "ghp_x" cold
         = (Raise identity_error, asked_user)
      /\ usage_requests (trace asked_user) = usage_requests (trace cold)).
Proof.
  destruct C7_identity_error as (Hname & Hrun).
  assert (Hl : login_of empty_login = Some (JStr "")) by reflexivity.
  assert (Ht : truthy (JStr "") = false) by reflexivity.
  assert (Hl' : login_of octocat = Some (JStr "octocat")) by reflexivity.
  assert (Ht' : truthy (JStr "octocat") = true) by reflexivity.
  assert (Hid : _get_github_username (fun _ _ => Body empty_login) "ghp_x" cold
                = (Raise identity_error, asked_user)) by (vm_compute; reflexivity).
  split; [|split].
  - split; [exact Hl|]. split; [exact Ht|].
    apply (proj1 (Hname empty_login)). right. right.
    exists (JStr ""). split; [exact Hl | exact Ht].
  - split; [exact Hl'|]. split; [exact Ht'|].
    apply (proj2 (Hname octocat)). split; [exact Hl' | exact Ht'].
  - split; [exact Hid|]. exact (Hrun _ _ _ _ _ Hid).
Defined.

Lemma C8_missing_credential_witness :
  given (GITHUB_TOKEN (load_copilot_config None)) = None
  /\ main plain_eta plain_template github cli_args None mid_june cold
     = (Outcome nil
          (Text "[!] Error: No GITHUB_TOKEN in ~/.config/waybar-ai-usage/copilot.conf" :: nil) 1,
        cold)
  /\ main plain_eta plain_template github waybar_args None mid_june cold
     = (Outcome (Json (no_token_payload waybar_args) :: nil) nil 0, cold).
Proof.
  destruct C8_missing_credential as (Hmain & Hnone & _).
  split; [exact Hnone|]. split.
  - exact (proj1 (Hmain plain_eta plain_template github cli_args None mid_june cold Hnone)).
  - exact (proj1 (Hmain plain_eta plain_template github waybar_args None mid_june cold Hnone)).
Defined.



(** * Further properties of the code *)

(** ** The requests of one fetch *)

Lemma username_of_truthy data u : username_of data = Ok u -> truthy u = true.
Proof.
  rewrite username_of_login.
  destruct (login_of data) as [v|]; [|discriminate].
  destruct (truthy v) eqn:E; [|discriminate].
  intros H. injection H as <-. exact E.
Qed.

Lemma cached_logged key k w : cached key (logged k w) = cached key w.
Proof. reflexivity. Qed.

(** The events that one usage fetch adds, whatever it comes to. *)
Lemma get_copilot_usage_events net token w r w' :
  get_copilot_usage net token w = (r, w') ->
  exists new,
    trace w' = (new ++ trace w)%list
    /\ request_shape token (requests new)
    /\ clock w' = clock w.
Proof.
  rewrite get_copilot_usage_run.
  destruct (cached "copilot" w) as [v|].
  { intros H. injection H as <- <-. exists nil. repeat split. left. reflexivity. }
  rewrite fetch_uncached_run, get_github_username_run, cached_logged.
  destruct (cached "copilot_user" w) as [data|].
  - destruct (username_of data) as [u|e] eqn:Eu.
    + pose proof (username_of_truthy _ _ Eu) as Ht.
      destruct (rbind (received (net (UsageEndpoint u) token)) reduce_usage);
        intros H; injection H as <- <-;
        exists (Requested (UsageEndpoint u) token :: Produced "copilot" :: nil);
        (split; [reflexivity|]); (split; [|reflexivity]);
        right; right; exists u; split; [exact Ht | left; reflexivity | exact Ht | left; reflexivity].
    + intros H. injection H as <- <-. exists (Produced "copilot" :: nil).
      repeat split. left. reflexivity.
  - destruct (rbind (received (net UserEndpoint token)) username_of) as [u|e] eqn:Eu.
    + assert (Ht : truthy u = true).
      { destruct (received (net UserEndpoint token)) as [data|]; [|discriminate].
        exact (username_of_truthy _ _ Eu). }
      destruct (rbind (received (net (UsageEndpoint u) token)) reduce_usage);
        intros H; injection H as <- <-;
        exists (Requested (UsageEndpoint u) token :: Requested UserEndpoint token
                  :: Produced "copilot_user" :: Produced "copilot" :: nil);
        (split; [reflexivity|]); (split; [|reflexivity]);
        right; right; exists u; split; [exact Ht | right; reflexivity | exact Ht | right; reflexivity].
    + intros H. injection H as <- <-.
      exists (Requested UserEndpoint token :: Produced "copilot_user" :: Produced "copilot" :: nil).
      repeat split. right. left. reflexivity.
Qed.

(** X1: one call of [get_copilot_usage] sends at most the identity request
    and then the usage request, each once and with the token it was given,
    and the usage request names a login that is not empty; with a fresh
    snapshot in the cache it does nothing at all. *)
Theorem X1_requests_of_a_fetch :
  forall net token w r w',
    get_copilot_usage net token w = (r, w') ->
    (exists new,
        trace w' = (new ++ trace w)%list
        /\ request_shape token (requests new)
        /\ clock w' = clock w)
    /\ (forall v, cached "copilot" w = Some v -> r = Ok v /\ w' = w).
Proof.
  intros net token w r w' H. split.
  - exact (get_copilot_usage_events _ _ _ _ _ H).
  - intros v Hv. rewrite get_copilot_usage_run, Hv in H.
    injection H as <- <-. split; reflexivity.
Qed.

(** ** The identity entry of the cache *)

Lemma cached_after_insert key c m tr data t0 ttl t :
  cached key (at_time t (World c (<[key := CacheEntry data t0 ttl]> m) tr))
  = if t <? t0 + ttl then Some data else None.
Proof.
  unfold cached, at_time, fresh. cbn [store clock].
  rewrite lookup_insert_eq. reflexivity.
Qed.

(** X2: the answer of the identity endpoint is stored as it comes, before
    its login is looked at, and under a key that does not depend on the
    token. While the entry is fresh every usage fetch, with whatever token
    and server, leaves the identity endpoint alone: with a good entry it
    sends the one usage request for the stored login, with a bad entry it
    fails with the identity error and sends nothing. *)
Theorem X2_cached_identity :
  (forall net token w data r w1 t,
      cached "copilot_user" w = None ->
      received (net UserEndpoint token) = Ok data ->
      _get_github_username net token w = (r, w1) ->
      t < clock w + 3600 ->
      r = username_of data /\ cached "copilot_user" (at_time t w1) = Some data)
  /\ (forall net token w data u r w',
         cached "copilot_user" w = Some data ->
         username_of data = Ok u ->
         cached "copilot" w = None ->
         get_copilot_usage net token w = (r, w') ->
         r = rbind (received (net (UsageEndpoint u) token)) reduce_usage
         /\ trace w' = Requested (UsageEndpoint u) token :: Produced "copilot" :: trace w)
  /\ (forall net token w data e r w',
         cached "copilot_user" w = Some data ->
         username_of data = Raise e ->
         cached "copilot" w = None ->
         get_copilot_usage net token w = (r, w') ->
         r = Raise identity_error
         /\ requests (trace w') = requests (trace w)
         /\ store w' = store w).
Proof.
  split; [|split].
  - intros net token w data r w1 t Hm Hd. rewrite get_github_username_run, Hm, Hd.
    unfold after_user_request. rewrite Hd. cbn [rbind].
    intros H Ht. injection H as <- <-. split; [reflexivity|].
    rewrite cached_after_insert.
    destruct (Z.ltb_spec t (clock w + 3600)); [reflexivity | lia].
  - intros net token w data u r w' Hc Hu Hm.
    rewrite get_copilot_usage_run, Hm, fetch_uncached_run, get_github_username_run,
      cached_logged, Hc, Hu.
    destruct (rbind (received (net (UsageEndpoint u) token)) reduce_usage);
      intros H; injection H as <- <-; split; reflexivity.
  - intros net token w data e r w' Hc Hu Hm.
    rewrite get_copilot_usage_run, Hm, fetch_uncached_run, get_github_username_run,
      cached_logged, Hc.
    assert (He : username_of data = Raise identity_error).
    { revert Hu. rewrite username_of_login.
      destruct (login_of data) as [v|]; [destruct (truthy v)|]; congruence. }
    rewrite He. intros H. injection H as <- <-. repeat split.
Qed.

(** ** What a failed fetch leaves behind *)

(** X3: a usage fetch that fails leaves the snapshot entry of the cache as
    it was, fresh, stale or absent; the one thing it may have stored is the
    answer of the identity endpoint, with the time of the fetch and a
    lifetime of 3600 seconds. *)
Theorem X3_failed_fetch_keeps_cache :
  forall net token w e w',
    get_copilot_usage net token w = (Raise e, w') ->
    store w' !! "copilot" = store w !! "copilot"
    /\ (store w' = store w
        \/ exists data,
             cached "copilot_user" w = None
             /\ received (net UserEndpoint token) = Ok data
             /\ store w' = <["copilot_user" := CacheEntry data (clock w) 3600]> (store w)).
Proof.
  intros net token w e w'. rewrite get_copilot_usage_run.
  destruct (cached "copilot" w) as [v|]; [discriminate|].
  rewrite fetch_uncached_run, get_github_username_run, cached_logged.
  destruct (cached "copilot_user" w) as [data|].
  - destruct (username_of data) as [u|e0].
    + destruct (rbind (received (net (UsageEndpoint u) token)) reduce_usage);
        [discriminate|].
      intros H. injection H as <- <-. split; [reflexivity | left; reflexivity].
    + intros H. injection H as <- <-. split; [reflexivity | left; reflexivity].
  - unfold after_user_request.
    destruct (received (net UserEndpoint token)) as [data|e0]; cbn [rbind].
    + assert (Hk : (<["copilot_user" := CacheEntry data (clock w) 3600]> (store w))
                     !! "copilot" = store w !! "copilot")
        by (apply lookup_insert_ne; discriminate).
      destruct (username_of data) as [u|e1].
      * destruct (rbind (received (net (UsageEndpoint u) token)) reduce_usage);
          [discriminate|].
        intros H. injection H as <- <-. cbn [store after_usage_request logged clock].
        split; [exact Hk|]. right. exists data. repeat split.
      * intros H. injection H as <- <-. cbn [store logged clock].
        split; [exact Hk|]. right. exists data. repeat split.
    + intros H. injection H as <- <-. split; [reflexivity | left; reflexivity].
Qed.

(** ** The reduction of the usage answer: edges and failures *)

Lemma sum_gross_app l1 l2 : forall acc,
  sum_gross acc (l1 ++ l2)%list = (acc' <~ sum_gross acc l1 ;; sum_gross acc' l2).
Proof.
  induction l1 as [|item rest IH]; intros acc; cbn [sum_gross app rbind]; [reflexivity|].
  destruct (py_get item "grossQuantity" (JNum (Py.Int 0))) as [v|]; [|reflexivity].
  cbn [rbind]. destruct (py_add acc v) as [acc'|]; [|reflexivity].
  cbn [rbind]. apply IH.
Qed.

Lemma sum_gross_ok items : forall acc total,
  sum_gross acc items = Ok total ->
  exists qs, quantities items = Some qs /\ py_sum acc qs = Ok total.
Proof.
  induction items as [|item rest IH]; intros acc total; cbn [sum_gross quantities].
  - intros H. exists nil. split; [reflexivity | exact H].
  - destruct item as [| | | | |fields]; try discriminate.
    cbn [py_get rbind quantity].
    unfold py_add.
    destruct (dict_get "grossQuantity" fields) as [v|]; cbn [from_option id as_num].
    + destruct (as_num v) as [q|]; [|discriminate].
      destruct (Py.add acc q) as [acc'|] eqn:Ea; [|discriminate]. cbn [rbind].
      intros H. destruct (IH _ _ H) as (qs & Hq & Hs).
      exists (q :: qs). rewrite Hq. split; [reflexivity|].
      cbn [py_sum]. rewrite Ea. exact Hs.
    + destruct (Py.add acc (Py.Int 0)) as [acc'|] eqn:Ea; [|discriminate]. cbn [rbind].
      intros H. destruct (IH _ _ H) as (qs & Hq & Hs).
      exists (Py.Int 0 :: qs). rewrite Hq. split; [reflexivity|].
      cbn [py_sum]. rewrite Ea. exact Hs.
Qed.

Lemma sum_gross_bad bad post acc :
  quantity bad = None ->
  exists e,
    sum_gross acc (bad :: post) = Raise e
    /\ exn_cls e = if is_object bad then TypeError else AttributeError.
Proof.
  intros Hb. cbn [sum_gross].
  destruct bad as [| | | | |fields]; cbn [py_get rbind is_object];
    try (eexists; split; reflexivity).
  cbn [quantity] in Hb. unfold py_add.
  destruct (dict_get "grossQuantity" fields) as [v|]; [|discriminate].
  cbn [from_option id]. rewrite Hb. eexists. split; reflexivity.
Qed.

(** X4: an object without "usageItems" reduces to the integer total 0; an
    answer that is neither a list nor an object is an [AttributeError];
    and a list reduces to a snapshot only if every item is an object whose
    "grossQuantity" is a number or missing, the snapshot then holding the
    rounded sum and the answer itself under "raw". *)
Theorem X4_usage_answer_shapes :
  (forall fields,
      dict_get "usageItems" fields = None ->
      reduce_usage (JDict fields)
      = Ok (JDict (("used", JNum (Py.Int 0)) :: ("raw", JDict fields) :: nil)))
  /\ (forall usage_data,
         is_object usage_data = false ->
         (forall items, usage_data <> JList items) ->
         exists msg, reduce_usage usage_data = Raise (Exn AttributeError msg))
  /\ (forall items snapshot,
         reduce_usage (JList items) = Ok snapshot ->
         exists qs total,
           quantities items = Some qs
           /\ py_sum (Py.Int 0) qs = Ok total
           /\ snapshot = JDict (("used", JNum (Py.round1 total)) :: ("raw", JList items) :: nil)).
Proof.
  split; [|split].
  - intros fields H. unfold reduce_usage. cbn [py_get]. rewrite H. reflexivity.
  - intros usage_data Ho Hl.
    destruct usage_data as [| | | |items|fields];
      try (eexists; reflexivity); [|discriminate].
    exfalso. exact (Hl items eq_refl).
  - intros items snapshot. rewrite reduce_usage_list.
    destruct (sum_gross (Py.Int 0) items) as [total|] eqn:E; [|discriminate].
    cbn [rbind]. intros H. injection H as <-.
    destruct (sum_gross_ok _ _ _ E) as (qs & Hq & Hs).
    exists qs, total. repeat split; assumption.
Qed.

(** X5: the first item of the list that is no object, or whose
    "grossQuantity" is no number, stops the reduction: with an
    [AttributeError] in the first case and a [TypeError] in the second,
    whatever follows it. *)
Theorem X5_first_bad_item :
  forall pre bad post qs acc,
    quantities pre = Some qs ->
    py_sum (Py.Int 0) qs = Ok acc ->
    quantity bad = None ->
    exists e,
      reduce_usage (JList (pre ++ bad :: post)%list) = Raise e
      /\ exn_cls e = if is_object bad then TypeError else AttributeError.
Proof.
  intros pre bad post qs acc Hq Hs Hb.
  rewrite reduce_usage_list, sum_gross_app, (sum_gross_quantities _ _ _ Hq), Hs.
  cbn [rbind].
  destruct (sum_gross_bad bad post acc Hb) as (e & He & Hc).
  exists e. rewrite He. split; [reflexivity | exact Hc].
Qed.



(** ** Totals that are not finite *)

Lemma float_of_int_100 :
  exists m e, Py.float_of_int 100 = Ok (S754_finite false m e).
Proof. vm_compute. eauto. Qed.

Lemma raw_pct_not_finite x quota :
  Py.is_finite x = false -> 0 < quota ->
  exists e, raw_pct (Py.Float x) quota = Raise e.
Proof.
  intros Hx Hq. unfold raw_pct.
  destruct (Z.ltb_spec 0 quota); [|lia].
  unfold percentage_formula. cbn [Py.truediv].
  destruct (Py.float_of_int quota) as [y|e]; cbn [rbind]; [|eauto].
  destruct (Py.is_zero y) eqn:Hz; cbn [rbind]; [eauto|].
  destruct float_of_int_100 as (m & e & H100).
  cbn [Py.mul rbind]. rewrite H100. cbn [rbind].
  destruct x as [s|s| |s mx ex]; try discriminate;
    destruct y as [t|t| |t my ey]; try discriminate;
    cbn; eauto.
Qed.

Lemma used_str_not_finite x :
  Py.is_finite x = false -> exists e, used_str_of (Py.Float x) = Raise e.
Proof.
  destruct x as [s|s| |s m e]; try discriminate; intros _; cbn; eauto.
Qed.

Section NotFinite.

Variable format_eta : string -> string.
Variable format_output : string -> list (string * json) -> result string.

Lemma print_waybar_not_finite x quota fmt tip now :
  Py.is_finite x = false ->
  exists e, print_waybar format_eta format_output (Py.Float x) quota fmt tip now = Raise e.
Proof.
  intros Hx. unfold print_waybar.
  destruct (raw_pct (Py.Float x) quota); cbn [rbind]; [|eauto].
  destruct (_next_month_reset_iso now); cbn [rbind]; [|eauto].
  destruct (used_str_not_finite x Hx) as (e & ->). cbn [rbind]. eauto.
Qed.

Lemma print_cli_not_finite x quota now :
  Py.is_finite x = false -> 0 < quota ->
  exists e, print_cli format_eta (Py.Float x) quota now = Raise e.
Proof.
  intros Hx Hq. unfold print_cli.
  destruct (raw_pct_not_finite x quota Hx Hq) as (e & ->). cbn [rbind]. eauto.
Qed.

End NotFinite.

(** X7: a total that is infinite or not a number (two quantities of 1e308
    already add up to infinity) makes [print_waybar] raise for every quota
    and [print_cli] raise for every positive quota. Nothing in [main]
    catches that: the run ends with the report of the exception on the
    standard error and the exit code 1, in structured mode too. *)
Theorem X7_total_not_finite :
  forall format_eta format_output net a file now w token x w',
    given (GITHUB_TOKEN (load_copilot_config file)) = Some token ->
    fetch_used net token w = (Ok (JNum (Py.Float x)), w') ->
    Py.is_finite x = false ->
    (forall quota fmt tip,
        exists e, print_waybar format_eta format_output (Py.Float x) quota fmt tip now = Raise e)
    /\ (forall quota,
           0 < quota -> exists e, print_cli format_eta (Py.Float x) quota now = Raise e)
    /\ (waybar a = true \/ 0 < COPILOT_QUOTA (load_copilot_config file) ->
        exists e,
          main format_eta format_output net a file now w
          = (Outcome nil (Traceback e :: nil) 1, w')).
Proof.
  intros fe fo net a file now w token x w' Ht Hf Hx.
  split; [|split].
  - intros quota fmt tip. exact (print_waybar_not_finite fe fo x quota fmt tip now Hx).
  - intros quota Hq. exact (print_cli_not_finite fe x quota now Hx Hq).
  - intros Hmode. unfold main. rewrite Ht, Hf. unfold present.
    destruct (waybar a) eqn:Hw.
    + destruct (print_waybar_not_finite fe fo x (COPILOT_QUOTA (load_copilot_config file))
                  (format a) (tooltip_format a) now Hx) as (e & ->).
      eauto.
    + destruct Hmode as [Hmode|Hq]; [discriminate|].
      destruct (print_cli_not_finite fe x _ now Hx Hq) as (e & ->). eauto.
Qed.

(** ** The shape of every outcome *)


(** ** No usage at all *)

Lemma reset_iso_ok now :
  valid_datetime now = true -> last_month now = false ->
  exists iso, _next_month_reset_iso now = Ok iso.
Proof.
  intros Hv Hl.
  destruct (valid_datetime_bounds _ Hv) as [Hy Hm].
  unfold last_month in Hl. apply andb_false_iff in Hl.
  unfold _next_month_reset_iso, next_month_reset.
  destruct (Z.eqb_spec (month now) 12) as [H12|H12].
  - assert (Hy' : year now <> MAXYEAR).
    { destruct Hl as [Hl|Hl]; [apply Z.eqb_neq in Hl; exact Hl | discriminate]. }
    rewrite mk_datetime_first by (unfold MINYEAR, MAXYEAR in *; lia).
    cbn [rmap rbind]. eauto.
  - rewrite mk_datetime_first by lia. cbn [rmap rbind]. eauto.
Qed.

Lemma raw_pct_zero quota : raw_pct (Py.Int 0) quota = Ok 0.
Proof.
  unfold raw_pct. destruct (Z.ltb_spec 0 quota) as [Hq|Hq]; [|reflexivity].
  unfold percentage_formula. cbn [Py.truediv].
  destruct (Z.eqb_spec quota 0); [lia|].
  destruct (Z.ltb_spec 0 quota); [|lia].
  cbn [Py.nearest_of_ratio rbind Py.mul].
  destruct float_of_int_100 as (m & e & ->). reflexivity.
Qed.

(** X9: an empty list of items gives the integer total 0, and for the
    total 0 the structured output shows 0 percent with the class
    "copilot-low" whatever the quota is, zero and negative quotas included. *)
Theorem X9_no_usage :
  forall format_eta format_output quota now,
    valid_datetime now = true ->
    last_month now = false ->
    reduce_usage (JList nil)
    = Ok (JDict (("used", JNum (Py.Int 0)) :: ("raw", JList nil) :: nil))
    /\ exists payload,
         print_waybar format_eta format_output (Py.Int 0) quota None None now = Ok payload
         /\ field "percentage" payload = Some (JNum (Py.Int 0))
         /\ field "class" payload = Some (JStr "copilot-low").
Proof.
  intros fe fo quota now Hv Hl.
  split; [reflexivity|].
  destruct (reset_iso_ok now Hv Hl) as (iso & Hiso).
  unfold print_waybar. rewrite raw_pct_zero, Hiso. cbn [rbind given].
  eexists. split; [reflexivity|]. split; reflexivity.
Qed.

(** ** How failures of a request are labelled *)

Lemma contains_app_r sub a b :
  Str.contains sub b = true -> Str.contains sub (a ++ b) = true.
Proof.
  intros Hb. induction a as [|c a IH]; [exact Hb|].
  change (String c a ++ b) with (String c (a ++ b)).
  cbn [Str.contains]. rewrite IH. apply orb_true_r.
Qed.

Lemma short_err_network reason :
  short_err_of ("Network error: " ++ reason) = short_err_of reason.
Proof. reflexivity. Qed.

Lemma short_err_http_auth code body :
  code = 401 \/ code = 403 ->
  short_err_of ("HTTP " ++ Str.of_Z code ++ ": " ++ body) = "Auth Err".
Proof.
  intros [->| ->].
  - apply short_err_auth. left. reflexivity.
  - apply short_err_auth. right. reflexivity.
Qed.

Lemma short_err_http_body code body :
  Str.contains "401" body = true \/ Str.contains "403" body = true ->
  short_err_of ("HTTP " ++ Str.of_Z code ++ ": " ++ body) = "Auth Err".
Proof.
  intros H. apply short_err_auth.
  destruct H as [H|H]; [left | right];
    apply (contains_app_r _ "HTTP "), (contains_app_r _ (Str.of_Z code)),
      (contains_app_r _ ": "); exact H.
Qed.

(** X10: what the label of a failed request depends on. An HTTP answer
    with the status 401 or 403 is labelled "Auth Err" whatever its body
    says; any other HTTP answer is labelled "Auth Err" as soon as its body
    contains "401" or "403"; a URL error is labelled by its reason alone,
    "Auth Err" if the reason contains "401" or "403" and "Net Err"
    otherwise. On a cold cache a 401 or 403 of the identity endpoint ends
    the structured run with that payload and the exit code 0, and the plain
    run with the message on the standard error and the exit code 1. *)
Theorem X10_failure_labels :
  (forall code body,
      code = 401 \/ code = 403 \/ Str.contains "401" body = true
      \/ Str.contains "403" body = true ->
      exists e,
        received (HTTPError code body) = Raise e
        /\ exn_msg e = "HTTP " ++ Str.of_Z code ++ ": " ++ body
        /\ short_err_of (exn_msg e) = "Auth Err")
  /\ (forall reason,
         exists e,
           received (URLError reason) = Raise e
           /\ exn_msg e = "Network error: " ++ reason
           /\ short_err_of (exn_msg e) = short_err_of reason)
  /\ (forall format_eta format_output net a file now w token code body,
         given (GITHUB_TOKEN (load_copilot_config file)) = Some token ->
         cached "copilot" w = None ->
         cached "copilot_user" w = None ->
         net UserEndpoint token = HTTPError code body ->
         code = 401 \/ code = 403 ->
         exists e,
           exn_msg e = "HTTP " ++ Str.of_Z code ++ ": " ++ body
           /\ short_err_of (exn_msg e) = "Auth Err"
           /\ fst (main format_eta format_output net a file now w)
              = if waybar a
                then Outcome (Json (error_payload e) :: nil) nil 0
                else Outcome nil (Text ("[!] Critical Error: " ++ exn_msg e) :: nil) 1).
Proof.
  split; [|split].
  - intros code body H. eexists. split; [reflexivity|]. split; [reflexivity|].
    cbn [exn_msg].
    destruct H as [H|[H|H]].
    + apply short_err_http_auth. left. exact H.
    + apply short_err_http_auth. right. exact H.
    + apply short_err_http_body. exact H.
  - intros reason. eexists. split; [reflexivity|]. split; [reflexivity|].
    apply short_err_network.
  - intros fe fo net a file now w token code body Ht Hc Hu Hn Hcode.
    exists (Exn RuntimeError ("HTTP " ++ Str.of_Z code ++ ": " ++ body)).
    split; [reflexivity|]. split; [apply short_err_http_auth; exact Hcode|].
    unfold main. rewrite Ht. unfold fetch_used, bind.
    rewrite get_copilot_usage_run, Hc, fetch_uncached_run, get_github_username_run,
      cached_logged, Hu, Hn.
    cbn [received rbind fst]. destruct (waybar a); reflexivity.
Qed.

(** ** The requests of one run *)

Lemma fetch_used_events net token w r w' :
  fetch_used net token w = (r, w') ->
  exists new,
    trace w' = (new ++ trace w)%list /\ request_shape token (requests new).
Proof.
  unfold fetch_used, bind.
  destruct (get_copilot_usage net token w) as [[usage|e] w1] eqn:E;
    destruct (get_copilot_usage_events _ _ _ _ _ E) as (new & Hn & Hs & _);
    unfold lift; intros H; injection H as _ <-; eauto.
Qed.

(** X11: the requests of one run of [main] go out with the token of the
    configuration and with no other: a run without a token leaves the world
    as it is, and a run with one sends at most the identity request and the
    usage request, both with that token, which is not empty. *)
Theorem X11_requests_of_a_run :
  forall format_eta format_output net a file now w,
    exists new,
      trace (snd (main format_eta format_output net a file now w)) = (new ++ trace w)%list
      /\ match given (GITHUB_TOKEN (load_copilot_config file)) with
         | None => snd (main format_eta format_output net a file now w) = w
         | Some token =>
             token <> ""
             /\ GITHUB_TOKEN (load_copilot_config file) = Some token
             /\ request_shape token (requests new)
         end.
Proof.
  intros fe fo net a file now w. unfold main.
  destruct (given (GITHUB_TOKEN (load_copilot_config file))) as [token|] eqn:Hg.
  - assert (Htok : token <> "" /\ GITHUB_TOKEN (load_copilot_config file) = Some token).
    { unfold given in Hg.
      destruct (GITHUB_TOKEN (load_copilot_config file)) as [t|]; [|discriminate].
      destruct (String.eqb_spec t ""); [discriminate|].
      injection Hg as <-. split; [assumption | reflexivity]. }
    destruct (fetch_used net token w) as [[used|e] w'] eqn:E;
      destruct (fetch_used_events _ _ _ _ _ E) as (new & Hn & Hs);
      exists new.
    + cbn [snd]. split; [exact Hn|]. destruct Htok. repeat split; assumption.
    + destruct (waybar a); cbn [snd]; (split; [exact Hn|]);
        destruct Htok; repeat split; assumption.
  - exists nil. destruct (waybar a); cbn [snd]; split; reflexivity.
Qed.

(** ** Reading a line of the configuration *)

Lemma append_cons c a b : String c a ++ b = String c (a ++ b).
Proof. reflexivity. Qed.

Lemma append_empty_r s : s ++ "" = s.
Proof.
  induction s as [|c s IH]; [reflexivity|]. rewrite append_cons. f_equal. exact IH.
Qed.

Lemma append_nonempty a b : b <> "" -> a ++ b <> "".
Proof. destruct a; [auto | rewrite append_cons; discriminate]. Qed.

Lemma rstrip_cons c s :
  Str.rstrip (String c s)
  = match Str.rstrip s with
    | EmptyString => if Str.isspace c then EmptyString else String c EmptyString
    | String d r => String c (String d r)
    end.
Proof. reflexivity. Qed.

Lemma rstrip_app a b :
  Str.rstrip (a ++ b)
  = match Str.rstrip b with
    | EmptyString => Str.rstrip a
    | String _ _ => a ++ Str.rstrip b
    end.
Proof.
  induction a as [|c a IH].
  - change ("" ++ b) with b. destruct (Str.rstrip b); reflexivity.
  - rewrite append_cons, rstrip_cons, IH.
    destruct (Str.rstrip b) as [|d r] eqn:E; [symmetry; apply rstrip_cons|].
    rewrite append_cons.
    destruct (a ++ String d r) eqn:Ea; [|reflexivity].
    exfalso. revert Ea. apply append_nonempty. discriminate.
Qed.

Lemma rstrip_idempotent s : Str.rstrip (Str.rstrip s) = Str.rstrip s.
Proof.
  induction s as [|c s IH]; [reflexivity|]. rewrite rstrip_cons.
  destruct (Str.rstrip s) as [|d r] eqn:E.
  - destruct (Str.isspace c) eqn:Ec; [reflexivity|].
    rewrite rstrip_cons. cbn [Str.rstrip]. rewrite Ec. reflexivity.
  - rewrite rstrip_cons, IH. reflexivity.
Qed.

Lemma lstrip_rstrip s : Str.lstrip (Str.rstrip s) = Str.rstrip (Str.lstrip s).
Proof.
  induction s as [|c s IH]; [reflexivity|].
  rewrite rstrip_cons. cbn [Str.lstrip].
  destruct (Str.isspace c) eqn:Ec.
  - rewrite <- IH. destruct (Str.rstrip s) as [|d r]; [reflexivity|].
    cbn [Str.lstrip]. rewrite Ec. reflexivity.
  - rewrite rstrip_cons.
    destruct (Str.rstrip s) as [|d r]; cbn [Str.lstrip]; rewrite Ec; reflexivity.
Qed.

Lemma strip_rstrip s : Str.strip (Str.rstrip s) = Str.strip s.
Proof.
  unfold Str.strip. rewrite lstrip_rstrip. apply rstrip_idempotent.
Qed.

Lemma lstrip_idempotent s : Str.lstrip (Str.lstrip s) = Str.lstrip s.
Proof.
  induction s as [|c s IH]; [reflexivity|]. cbn [Str.lstrip].
  destruct (Str.isspace c) eqn:Ec; [exact IH|]. cbn [Str.lstrip]. rewrite Ec.
  reflexivity.
Qed.

Lemma strip_idempotent s : Str.strip (Str.strip s) = Str.strip s.
Proof.
  unfold Str.strip at 2. rewrite strip_rstrip.
  unfold Str.strip. rewrite lstrip_idempotent. reflexivity.
Qed.

Lemma to_int_strip s : Str.to_int (Str.strip s) = Str.to_int s.
Proof. unfold Str.to_int. rewrite strip_idempotent. reflexivity. Qed.

(** A line that starts with a key and [=]: the rest of it, trimmed, is the
    value. *)
Lemma strip_key_line key v :
  Str.lstrip (key ++ "=") = key ++ "=" -> Str.rstrip (key ++ "=") = key ++ "=" ->
  key <> "" ->
  Str.strip ((key ++ "=") ++ v) = (key ++ "=") ++ Str.rstrip v.
Proof.
  intros Hl Hr Hk. unfold Str.strip.
  assert (Hls : Str.lstrip ((key ++ "=") ++ v) = (key ++ "=") ++ v).
  { destruct key as [|c key]; [congruence|].
    rewrite !append_cons in *. cbn [Str.lstrip] in *.
    destruct (Str.isspace c); [|reflexivity].
    exfalso. apply (f_equal String.length) in Hl.
    assert (Hlen : forall s, (String.length (Str.lstrip s) <= String.length s)%nat).
    { induction s as [|d s IHs]; [reflexivity|]. cbn [Str.lstrip].
      destruct (Str.isspace d); cbn [String.length]; lia. }
    specialize (Hlen (key ++ "=")). cbn [String.length] in Hl. lia. }
  rewrite Hls, rstrip_app, Hr.
  destruct (Str.rstrip v); [|reflexivity].
  symmetry. apply append_empty_r.
Qed.

Lemma config_line_token cfg v :
  config_line cfg ("GITHUB_TOKEN=" ++ v) = Config (Some (Str.strip v)) (COPILOT_QUOTA cfg).
Proof.
  rewrite config_line_assign. unfold assignment_of.
  change ("GITHUB_TOKEN=" ++ v) with (("GITHUB_TOKEN" ++ "=") ++ v).
  rewrite strip_key_line by (reflexivity || discriminate).
  change (("GITHUB_TOKEN" ++ "=") ++ Str.rstrip v)
    with (String "G" ("ITHUB_TOKEN=" ++ Str.rstrip v)).
  cbn [String.eqb Ascii.eqb Bool.eqb].
  change (String "G" ("ITHUB_TOKEN=" ++ Str.rstrip v))
    with ("GITHUB_TOKEN=" ++ Str.rstrip v).
  replace (Str.startswith "#" ("GITHUB_TOKEN=" ++ Str.rstrip v)) with false by reflexivity.
  replace (Str.partition_from "=" nil ("GITHUB_TOKEN=" ++ Str.rstrip v))
    with (Some ("GITHUB_TOKEN", Str.rstrip v)) by reflexivity.
  replace (String.eqb (Str.strip "GITHUB_TOKEN") "GITHUB_TOKEN") with true by reflexivity.
  rewrite strip_rstrip. reflexivity.
Qed.

Lemma config_line_quota cfg v :
  config_line cfg ("COPILOT_QUOTA=" ++ v)
  = match Str.to_int v with
    | Some n => Config (GITHUB_TOKEN cfg) n
    | None => cfg
    end.
Proof.
  rewrite config_line_assign. unfold assignment_of.
  change ("COPILOT_QUOTA=" ++ v) with (("COPILOT_QUOTA" ++ "=") ++ v).
  rewrite strip_key_line by (reflexivity || discriminate).
  change (("COPILOT_QUOTA" ++ "=") ++ Str.rstrip v)
    with (String "C" ("OPILOT_QUOTA=" ++ Str.rstrip v)).
  cbn [String.eqb Ascii.eqb Bool.eqb].
  change (String "C" ("OPILOT_QUOTA=" ++ Str.rstrip v))
    with ("COPILOT_QUOTA=" ++ Str.rstrip v).
  replace (Str.startswith "#" ("COPILOT_QUOTA=" ++ Str.rstrip v)) with false by reflexivity.
  replace (Str.partition_from "=" nil ("COPILOT_QUOTA=" ++ Str.rstrip v))
    with (Some ("COPILOT_QUOTA", Str.rstrip v)) by reflexivity.
  replace (String.eqb (Str.strip "COPILOT_QUOTA") "GITHUB_TOKEN") with false by reflexivity.
  replace (String.eqb (Str.strip "COPILOT_QUOTA") "COPILOT_QUOTA") with true by reflexivity.
  rewrite strip_rstrip, to_int_strip.
  destruct (Str.to_int v); reflexivity.
Qed.


(** ** Writing a configuration and reading it back *)

Lemma digits_from_digit c d s acc cnt :
  Str.digit_val c = Some d -> Ascii.eqb c "_" = false ->
  Str.digits_from acc cnt false (String c s)
  = Str.digits_from (10 * acc + d) (cnt + 1) false s.
Proof. intros Hd Hu. cbn [Str.digits_from]. rewrite Hu, Hd. reflexivity. Qed.

Lemma digits_from_uint u : forall acc cnt,
  Str.digits_from acc cnt false (NilEmpty.string_of_uint u)
  = Some (uint_val u acc, cnt + Z.of_nat (String.length (NilEmpty.string_of_uint u))).
Proof.
  induction u; intros acc cnt;
    cbn [NilEmpty.string_of_uint uint_val String.length].
  1: { cbn [Str.digits_from]. f_equal. f_equal. lia. }
  all: erewrite digits_from_digit by reflexivity.
  all: rewrite IHu; f_equal; f_equal; lia.
Qed.

Lemma uint_val_acc u : forall acc : positive,
  uint_val u (Zpos acc) = Zpos (Pos.of_uint_acc u acc).
Proof.
  induction u; intros acc; cbn [uint_val Pos.of_uint_acc]; [reflexivity|..].
  all: rewrite <- IHu; f_equal; lia.
Qed.

Lemma uint_val_zero u : uint_val u 0 = Z.of_N (Pos.of_uint u).
Proof.
  induction u; cbn [uint_val Pos.of_uint]; [reflexivity | exact IHu |..].
  all: cbn [Z.of_N]; rewrite <- uint_val_acc; reflexivity.
Qed.

Lemma no_space_of_uint u : no_space (NilEmpty.string_of_uint u) = true.
Proof.
  induction u; cbn [NilEmpty.string_of_uint no_space]; [reflexivity|..].
  all: rewrite IHu; reflexivity.
Qed.

Lemma no_linebreak_of_uint u : no_linebreak (NilEmpty.string_of_uint u) = true.
Proof.
  induction u; cbn [NilEmpty.string_of_uint no_linebreak]; [reflexivity|..].
  all: rewrite IHu; reflexivity.
Qed.

Lemma strip_no_space s : no_space s = true -> Str.strip s = s.
Proof.
  intros H. unfold Str.strip.
  assert (Hl : Str.lstrip s = s).
  { destruct s as [|c s]; [reflexivity|]. cbn [no_space] in H.
    apply andb_prop in H. destruct H as [Hc _]. apply negb_true_iff in Hc.
    cbn [Str.lstrip]. rewrite Hc. reflexivity. }
  rewrite Hl. clear Hl. induction s as [|c s IH]; [reflexivity|].
  cbn [no_space] in H. apply andb_prop in H. destruct H as [Hc Hs].
  apply negb_true_iff in Hc. rewrite rstrip_cons, (IH Hs), Hc.
  destruct s; reflexivity.
Qed.

(** [int] reads a run of digits back. *)
Lemma unsigned_literal_uint u :
  u <> Decimal.Nil ->
  Z.of_nat (String.length (NilEmpty.string_of_uint u)) <= Str.MAX_STR_DIGITS ->
  Str.unsigned_literal (NilEmpty.string_of_uint u) = Some (uint_val u 0).
Proof.
  intros Hnil Hlen. pose proof (digits_from_uint u 0 0) as Hd.
  unfold Str.unsigned_literal.
  destruct u as [|u|u|u|u|u|u|u|u|u|u]; [congruence|..];
    cbn [NilEmpty.string_of_uint] in *;
    match goal with
    | |- context [Str.digit_val ?c] =>
        let d := eval vm_compute in (Str.digit_val c) in
        replace (Str.digit_val c) with d by reflexivity
    end;
    rewrite Hd;
    match goal with
    | |- (if ?b then _ else _) = _ => replace b with true; [reflexivity|]
    end;
    symmetry; apply Z.leb_le; lia.
Qed.

Lemma unsigned_literal_pos p :
  Repr.ndigits (Zpos p) <= Str.MAX_STR_DIGITS ->
  Str.unsigned_literal (NilEmpty.string_of_uint (Pos.to_uint p)) = Some (Zpos p).
Proof.
  intros Hlen.
  rewrite unsigned_literal_uint;
    [| apply DecimalPos.Unsigned.to_uint_nonnil | exact Hlen].
  rewrite uint_val_zero, DecimalPos.Unsigned.of_to. reflexivity.
Qed.

(** [int(str(n)) == n], as long as [n] has no more digits than [int]
    accepts. *)
Lemma to_int_of_Z n :
  Repr.ndigits (Z.abs n) <= Str.MAX_STR_DIGITS -> Str.to_int (Str.of_Z n) = Some n.
Proof.
  destruct n as [|p|p]; cbn [Z.abs]; intros Hlen; [reflexivity| |].
  - pose proof (unsigned_literal_pos p Hlen) as Hu.
    pose proof (DecimalPos.Unsigned.to_uint_nonnil p) as Hnil.
    unfold Str.to_int, Str.of_Z, NilEmpty.string_of_int. cbn [Z.to_int].
    rewrite strip_no_space by apply no_space_of_uint.
    destruct (Pos.to_uint p) as [|u|u|u|u|u|u|u|u|u|u]; [congruence|..];
      cbn [NilEmpty.string_of_uint] in *; exact Hu.
  - pose proof (unsigned_literal_pos p Hlen) as Hu.
    unfold Str.to_int, Str.of_Z, NilEmpty.string_of_int. cbn [Z.to_int].
    assert (Hs : Str.strip (String "-" (NilEmpty.string_of_uint (Pos.to_uint p)))
                 = String "-" (NilEmpty.string_of_uint (Pos.to_uint p))).
    { apply strip_no_space. cbn [no_space]. rewrite no_space_of_uint. reflexivity. }
    change ("-" ++ NilEmpty.string_of_uint (Pos.to_uint p))
      with (String "-" (NilEmpty.string_of_uint (Pos.to_uint p))).
    rewrite Hs. cbn [Ascii.eqb Bool.eqb]. rewrite Hu. reflexivity.
Qed.

Lemma splitlines_line s : forall acc rest,
  no_linebreak s = true ->
  Str.splitlines_from acc (s ++ NL ++ rest)
  = Str.of_rev acc s :: Str.splitlines_from nil rest.
Proof.
  induction s as [|c s IH]; intros acc rest H.
  - reflexivity.
  - cbn [no_linebreak] in H. apply andb_prop in H. destruct H as [Hc Hs].
    apply negb_true_iff in Hc.
    rewrite append_cons. cbn [Str.splitlines_from]. rewrite Hc.
    rewrite (IH _ _ Hs). reflexivity.
Qed.

Lemma splitlines_last_line s acc :
  no_linebreak s = true ->
  Str.splitlines_from acc (s ++ NL) = Str.of_rev acc s :: nil.
Proof.
  intros H. rewrite <- (append_empty_r NL), (splitlines_line s acc "" H). reflexivity.
Qed.

Lemma no_linebreak_of_Z n : no_linebreak (Str.of_Z n) = true.
Proof.
  unfold Str.of_Z, NilEmpty.string_of_int.
  destruct (Z.to_int n) as [u|u]; [apply no_linebreak_of_uint|].
  change ("-" ++ NilEmpty.string_of_uint u) with (String "-" (NilEmpty.string_of_uint u)).
  cbn [no_linebreak]. rewrite no_linebreak_of_uint. reflexivity.
Qed.

(** X13: a configuration written as the "No Token" tooltip says, the line
    "GITHUB_TOKEN=" with the token and the line "COPILOT_QUOTA=" with the
    decimal text of the quota, is read back as that token (without white
    space around it) and that quota. This holds for every integer of at most
    4300 digits, zero and negative ones included: the quota is not checked
    to be positive. *)
Theorem X13_configuration_round_trip :
  forall tok n,
    no_linebreak tok = true ->
    Repr.ndigits (Z.abs n) <= Str.MAX_STR_DIGITS ->
    Str.to_int (Str.of_Z n) = Some n
    /\ load_copilot_config
         (Some (("GITHUB_TOKEN=" ++ tok) ++ NL ++ ("COPILOT_QUOTA=" ++ Str.of_Z n) ++ NL))
       = Config (Some (Str.strip tok)) n.
Proof.
  intros tok n Htok Hn.
  pose proof (to_int_of_Z n Hn) as Hint. split; [exact Hint|].
  unfold load_copilot_config, Str.splitlines.
  assert (H1 : no_linebreak ("GITHUB_TOKEN=" ++ tok) = true) by exact Htok.
  assert (H2 : no_linebreak ("COPILOT_QUOTA=" ++ Str.of_Z n) = true)
    by exact (no_linebreak_of_Z n).
  rewrite (splitlines_line _ nil _ H1), (splitlines_last_line _ nil H2).
  cbn [Str.of_rev fold_left].
  rewrite config_line_token, config_line_quota, Hint. reflexivity.
Qed.

(** ** A quota that is not positive *)



(** ** The label of a failure that is no request failure *)

Lemma net_err_operand acc v :
  short_err_of ("unsupported operand type(s) for +: '"
                ++ type_name (JNum acc) ++ "' and '" ++ type_name v ++ "'") = "Net Err".
Proof. destruct acc, v as [| |[|]| | |]; reflexivity. Qed.

Lemma py_get_net_err v key dflt e :
  py_get v key dflt = Raise e -> short_err_of (exn_msg e) = "Net Err".
Proof.
  destruct v as [| |[|]| | |]; cbn [py_get]; intros H; try discriminate;
    injection H as <-; reflexivity.
Qed.

Lemma float_of_int_net_err n e :
  Py.float_of_int n = Raise e -> short_err_of (exn_msg e) = "Net Err".
Proof.
  unfold Py.float_of_int. destruct (Py.nearest_of_Z n); intros H; try discriminate.
  injection H as <-. reflexivity.
Qed.

Lemma add_net_err a b e :
  Py.add a b = Raise e -> short_err_of (exn_msg e) = "Net Err".
Proof.
  destruct a as [m|x], b as [n|y]; cbn [Py.add rbind]; try discriminate.
  - destruct (Py.float_of_int m) eqn:E; cbn [rbind]; [discriminate|].
    intros H. injection H as <-. exact (float_of_int_net_err _ _ E).
  - destruct (Py.float_of_int n) eqn:E; cbn [rbind]; [discriminate|].
    intros H. injection H as <-. exact (float_of_int_net_err _ _ E).
Qed.

Lemma py_add_net_err acc v e :
  py_add acc v = Raise e -> short_err_of (exn_msg e) = "Net Err".
Proof.
  unfold py_add. destruct (as_num v) as [n|].
  - apply add_net_err.
  - intros H. injection H as <-. apply net_err_operand.
Qed.

Lemma sum_gross_net_err items : forall acc e,
  sum_gross acc items = Raise e -> short_err_of (exn_msg e) = "Net Err".
Proof.
  induction items as [|item rest IH]; intros acc e; cbn [sum_gross]; [discriminate|].
  destruct (py_get item "grossQuantity" (JNum (Py.Int 0))) as [v|e0] eqn:Eg; cbn [rbind].
  - destruct (py_add acc v) as [acc'|e1] eqn:Ea; cbn [rbind].
    + apply IH.
    + intros H. injection H as <-. exact (py_add_net_err _ _ _ Ea).
  - intros H. injection H as <-. exact (py_get_net_err _ _ _ _ Eg).
Qed.

(** X15: the failures that are no request failures are all labelled
    "Net Err" in structured mode: the identity error, and everything the
    reduction of a malformed usage answer can raise (an answer or item
    without [get], a value that cannot be iterated or added, an integer too
    large for a [float]). *)
Theorem X15_label_of_other_failures :
  (forall data e, username_of data = Raise e -> short_err_of (exn_msg e) = "Net Err")
  /\ (forall usage_data e,
         reduce_usage usage_data = Raise e -> short_err_of (exn_msg e) = "Net Err").
Proof.
  split.
  - intros data e. rewrite username_of_login.
    destruct (login_of data) as [v|]; [destruct (truthy v)|]; intros H;
      try discriminate; injection H as <-; reflexivity.
  - intros usage_data e. unfold reduce_usage.
    destruct (match usage_data with
              | JList _ => Ok usage_data
              | _ => py_get usage_data "usageItems" (JList nil)
              end) as [usage_items|e0] eqn:E0; cbn [rbind].
    + destruct (py_iter usage_items) as [items|e1] eqn:E1; cbn [rbind].
      * destruct (sum_gross (Py.Int 0) items) as [used|e2] eqn:E2; cbn [rbind];
          [discriminate|].
        intros H. injection H as <-. exact (sum_gross_net_err _ _ _ E2).
      * intros H. injection H as <-.
        destruct usage_items as [| |[|]| | |]; cbn [py_iter] in E1; try discriminate;
          injection E1 as <-; reflexivity.
    + intros H. injection H as <-.
      destruct usage_data; try discriminate; exact (py_get_net_err _ _ _ _ E0).
Qed.

(** ** A whole run *)

Lemma reduce_usage_used usage_data snapshot :
  reduce_usage usage_data = Ok snapshot ->
  exists used,
    snapshot = JDict (("used", JNum used) :: ("raw", usage_data) :: nil).
Proof.
  unfold reduce_usage.
  destruct (match usage_data with
            | JList _ => Ok usage_data
            | _ => py_get usage_data "usageItems" (JList nil)
            end); cbn [rbind]; [|discriminate].
  destruct (py_iter _); cbn [rbind]; [|discriminate].
  destruct (sum_gross _ _) as [used|]; cbn [rbind]; [|discriminate].
  intros H. injection H as <-. exists (Py.round1 used). reflexivity.
Qed.

Section WholeRuns.

Variable format_eta : string -> string.
Variable format_output : string -> list (string * json) -> result string.

Lemma main_cold_run net a file now w token data username usage_data snapshot :
  given (GITHUB_TOKEN (load_copilot_config file)) = Some token ->
  cached "copilot" w = None ->
  cached "copilot_user" w = None ->
  net UserEndpoint token = Body data ->
  username_of data = Ok username ->
  net (UsageEndpoint username) token = Body usage_data ->
  reduce_usage usage_data = Ok snapshot ->
  exists used,
    snapshot = JDict (("used", JNum used) :: ("raw", usage_data) :: nil)
    /\ main format_eta format_output net a file now w
       = (present format_eta format_output a (JNum used)
            (COPILOT_QUOTA (load_copilot_config file)) now,
          after_cold_run token data username snapshot w).
Proof.
  intros Ht Hc Hu Hn1 Hname Hn2 Hred.
  destruct (reduce_usage_used _ _ Hred) as (used & Hsnap).
  exists used. split; [exact Hsnap|].
  unfold main. rewrite Ht. unfold fetch_used, bind.
  rewrite get_copilot_usage_run, Hc, fetch_uncached_run, get_github_username_run,
    cached_logged, Hu.
  unfold after_user_request, after_usage_request, after_cold_run, logged.
  rewrite Hn1. cbn [received rbind clock store trace]. rewrite Hname, Hn2.
  cbn [received rbind]. rewrite Hred. unfold lift. rewrite Hsnap. reflexivity.
Qed.


End WholeRuns.

(** X16: a first run with a token. On a cache that holds neither entry,
    and with a server that answers both requests, [main] asks for the
    identity, then for the usage of the login it got, stores both answers
    (for 3600 and for 60 seconds) and presents the number under "used" of the
    reduced answer with the quota of the configuration. *)
Theorem X16_first_run :
  forall format_eta format_output net a file now w token data username usage_data snapshot,
    given (GITHUB_TOKEN (load_copilot_config file)) = Some token ->
    cached "copilot" w = None ->
    cached "copilot_user" w = None ->
    net UserEndpoint token = Body data ->
    username_of data = Ok username ->
    net (UsageEndpoint username) token = Body usage_data ->
    reduce_usage usage_data = Ok snapshot ->
    exists used,
      field "used" snapshot = Some (JNum used)
      /\ main format_eta format_output net a file now w
         = (present format_eta format_output a (JNum used)
              (COPILOT_QUOTA (load_copilot_config file)) now,
            after_cold_run token data username snapshot w).
Proof.
  intros fe fo net a file now w token data username usage_data snapshot
    Ht Hc Hu Hn1 Hname Hn2 Hred.
  destruct (main_cold_run fe fo net a file now w token data username usage_data
              snapshot Ht Hc Hu Hn1 Hname Hn2 Hred) as (used & Hsnap & Hmain).
  exists used. split; [rewrite Hsnap; reflexivity | exact Hmain].
Qed.


(** ** The text of the reset instant *)

Lemma length_append a b :
  String.length (a ++ b) = (String.length a + String.length b)%nat.
Proof.
  induction a as [|c a IH]; [reflexivity|].
  rewrite append_cons. cbn [String.length]. rewrite IH. reflexivity.
Qed.

Lemma years_checked : forallb four_digits all_years = true.
Proof. vm_compute. reflexivity. Qed.

Lemma months_checked : forallb two_digits all_months = true.
Proof. vm_compute. reflexivity. Qed.

Lemma year_four_digits y :
  MINYEAR <= y <= MAXYEAR -> String.length (zero_pad 4 y) = 4%nat.
Proof.
  intros Hy. apply Nat.eqb_eq. change (four_digits y = true).
  pose proof years_checked as H. rewrite forallb_forall in H. apply H.
  unfold all_years. apply in_map_iff. exists (Z.to_nat y).
  unfold MINYEAR, MAXYEAR in *. split; [lia|]. apply in_seq. lia.
Qed.

Lemma month_two_digits m :
  1 <= m <= 12 -> String.length (zero_pad 2 m) = 2%nat.
Proof.
  intros Hm. apply Nat.eqb_eq. change (two_digits m = true).
  pose proof months_checked as H. rewrite forallb_forall in H. apply H.
  unfold all_months. apply in_map_iff. exists (Z.to_nat m).
  split; [lia|]. apply in_seq. lia.
Qed.

Lemma isoformat_first_of_month y m :
  isoformat (DateTime y m 1 0 0 0 0)
  = zero_pad 4 y ++ "-" ++ zero_pad 2 m ++ "-01T00:00:00+00:00".
Proof. reflexivity. Qed.

(** X18: the text of the reset instant that is handed to [format_eta] has
    always the same layout: the year in four digits, the month in two, and
    then "-01T00:00:00+00:00", 25 characters in all. *)
Theorem X18_reset_text :
  forall now,
    valid_datetime now = true ->
    last_month now = false ->
    exists y m,
      _next_month_reset_iso now
      = Ok (zero_pad 4 y ++ "-" ++ zero_pad 2 m ++ "-01T00:00:00+00:00")
      /\ 12 * y + (m - 1) = month_index now + 1
      /\ String.length (zero_pad 4 y) = 4%nat
      /\ String.length (zero_pad 2 m) = 2%nat
      /\ String.length (zero_pad 4 y ++ "-" ++ zero_pad 2 m ++ "-01T00:00:00+00:00") = 25%nat.
Proof.
  intros now Hv Hl.
  destruct (valid_datetime_bounds _ Hv) as [Hy Hm].
  unfold last_month in Hl. apply andb_false_iff in Hl.
  assert (Hshape : forall y m,
             MINYEAR <= y <= MAXYEAR -> 1 <= m <= 12 ->
             String.length (zero_pad 4 y) = 4%nat
             /\ String.length (zero_pad 2 m) = 2%nat
             /\ String.length (zero_pad 4 y ++ "-" ++ zero_pad 2 m ++ "-01T00:00:00+00:00")
                = 25%nat).
  { intros y m Hy' Hm'.
    pose proof (year_four_digits y Hy') as H4. pose proof (month_two_digits m Hm') as H2.
    split; [exact H4|]. split; [exact H2|].
    rewrite !length_append, H4, H2. reflexivity. }
  unfold _next_month_reset_iso, next_month_reset, month_index.
  destruct (Z.eqb_spec (month now) 12) as [H12|H12].
  - assert (Hy' : year now <> MAXYEAR).
    { destruct Hl as [Hl|Hl]; [apply Z.eqb_neq in Hl; exact Hl | discriminate]. }
    exists (year now + 1), 1.
    rewrite mk_datetime_first by (unfold MINYEAR, MAXYEAR in *; lia).
    cbn [rmap rbind]. rewrite isoformat_first_of_month.
    split; [reflexivity|]. split; [lia|].
    apply Hshape; unfold MINYEAR, MAXYEAR in *; lia.
  - exists (year now), (month now + 1).
    rewrite mk_datetime_first by lia.
    cbn [rmap rbind]. rewrite isoformat_first_of_month.
    split; [reflexivity|]. split; [lia|].
    apply Hshape; lia.
Qed.

(** X19: the templates of [print_waybar]. An empty template counts as
    none. The templates decide the text and the tooltip only: the class and
    the percentage are the same whatever they are. A text template is
    expanded over nine names, among them "used", "quota" and "pct", the
    last being the percentage of the output itself, and a tooltip template
    is expanded over the same values. *)
Theorem X19_templates :
  forall format_eta format_output used quota now,
    (forall fmt tip,
        print_waybar format_eta format_output used quota (Some "") tip now
        = print_waybar format_eta format_output used quota None tip now
        /\ print_waybar format_eta format_output used quota fmt (Some "") now
           = print_waybar format_eta format_output used quota fmt None now)
    /\ (forall fmt tip fmt' tip' payload payload',
           print_waybar format_eta format_output used quota fmt tip now = Ok payload ->
           print_waybar format_eta format_output used quota fmt' tip' now = Ok payload' ->
           field "class" payload' = field "class" payload
           /\ field "percentage" payload' = field "percentage" payload)
    /\ (forall fmt tip payload,
           print_waybar format_eta format_output used quota fmt tip now = Ok payload ->
           exists data,
             map fst data = template_keys
             /\ dict_get "used" data = Some (JNum used)
             /\ dict_get "quota" data = Some (JNum (Py.Int quota))
             /\ dict_get "pct" data = field "percentage" payload
             /\ (forall t, given fmt = Some t ->
                   exists text,
                     format_output t data = Ok text
                     /\ field "text" payload = Some (JStr text))
             /\ (forall t, given tip = Some t ->
                   exists text,
                     format_output t data = Ok text
                     /\ field "tooltip" payload = Some (JStr text))).
Proof.
  intros format_eta format_output used quota now.
  split; [|split].
  - intros fmt tip. split; reflexivity.
  - intros fmt tip fmt' tip' payload payload' H H'.
    destruct (print_waybar_fields _ _ _ _ _ _ _ _ H) as (raw & Hr & Hp & Hc).
    destruct (print_waybar_fields _ _ _ _ _ _ _ _ H') as (raw' & Hr' & Hp' & Hc').
    rewrite Hr in Hr'. injection Hr' as <-.
    rewrite Hp, Hp', Hc, Hc'. split; reflexivity.
  - intros fmt tip payload H.
    unfold print_waybar in H.
    destruct (raw_pct used quota) as [raw|]; [|discriminate]. cbn [rbind] in H.
    destruct (_next_month_reset_iso now) as [iso|]; [|discriminate]. cbn [rbind] in H.
    destruct (used_str_of used) as [used_str|]; [|discriminate]. cbn [rbind] in H.
    match type of H with
    | context [format_output _ ?d] => exists d
    end.
    split; [reflexivity|]. split; [reflexivity|]. split; [reflexivity|].
    match type of H with rbind ?t _ = _ => destruct t as [text|] eqn:Ht; [|discriminate] end.
    cbn [rbind] in H.
    match type of H with rbind ?t _ = _ => destruct t as [tooltip|] eqn:Hp; [|discriminate] end.
    cbn [rbind] in H. injection H as <-.
    split; [reflexivity|]. split.
    + intros t Hg. rewrite Hg in Ht. exists text. split; [exact Ht | reflexivity].
    + intros t Hg. rewrite Hg in Hp. exists tooltip. split; [exact Hp | reflexivity].
Qed.

(** ** The further properties at work on concrete runs *)

Lemma X1_requests_of_a_fetch_witness :
  (get_copilot_usage github "ghp_x" cold = (Ok snapshot_3, warm)
   /\ exists new,
        trace warm = (new ++ trace cold)%list
        /\ request_shape "ghp_x" (requests new)
        /\ clock warm = clock cold)
  /\ (get_copilot_usage unreachable "ghp_y" warm = (Ok snapshot_3, warm)
      /\ cached "copilot" warm = Some snapshot_3
      /\ Ok snapshot_3 = Ok snapshot_3 /\ warm = warm).
Proof.
  assert (H1 : get_copilot_usage github "ghp_x" cold = (Ok snapshot_3, warm))
    by (vm_compute; reflexivity).
  assert (H2 : get_copilot_usage unreachable "ghp_y" warm = (Ok snapshot_3, warm))
    by (vm_compute; reflexivity).
  assert (Hc : cached "copilot" warm = Some snapshot_3) by (vm_compute; reflexivity).
  split.
  - split; [exact H1|]. exact (proj1 (X1_requests_of_a_fetch _ _ _ _ _ H1)).
  - split; [exact H2|]. split; [exact Hc|].
    exact (proj2 (X1_requests_of_a_fetch _ _ _ _ _ H2) snapshot_3 Hc).
Defined.

Lemma X2_cached_identity_witness :
  (cached "copilot_user" cold = None
   /\ received (github UserEndpoint "ghp_x") = Ok octocat
   /\ _get_github_username github "ghp_x" cold = (Ok (JStr "octocat"), known)
   /\ clock cold + 100 < clock cold + 3600
   /\ Ok (JStr "octocat") = username_of octocat
   /\ cached "copilot_user" known_later = Some octocat)
  /\ (username_of octocat = Ok (JStr "octocat")
      /\ cached "copilot" known_later = None
      /\ fst (get_copilot_usage unreachable "ghp_y" known_later)
         = rbind (received (unreachable (UsageEndpoint (JStr "octocat")) "ghp_y")) reduce_usage
      /\ trace (snd (get_copilot_usage unreachable "ghp_y" known_later))
         = Requested (UsageEndpoint (JStr "octocat")) "ghp_y" :: Produced "copilot"
             :: trace known_later)
  /\ (cached "copilot_user" asked_user = Some empty_login
      /\ username_of empty_login = Raise identity_error
      /\ cached "copilot" asked_user = None
      /\ fst (get_copilot_usage github "ghp_y" asked_user) = Raise identity_error
      /\ requests (trace (snd (get_copilot_usage github "ghp_y" asked_user)))
         = requests (trace asked_user)
      /\ store (snd (get_copilot_usage github "ghp_y" asked_user)) = store asked_user).
Proof.
  destruct X2_cached_identity as (Hstore & Hgood & Hbad).
  assert (Hm : cached "copilot_user" cold = None) by reflexivity.
  assert (Hd : received (github UserEndpoint "ghp_x") = Ok octocat) by reflexivity.
  assert (Hid : _get_github_username github "ghp_x" cold = (Ok (JStr "octocat"), known))
    by (vm_compute; reflexivity).
  assert (Hlt : clock cold + 100 < clock cold + 3600) by lia.
  assert (Hname : username_of octocat = Ok (JStr "octocat")) by reflexivity.
  assert (Hc : cached "copilot_user" known_later = Some octocat)
    by exact (proj2 (Hstore _ _ _ _ _ _ _ Hm Hd Hid Hlt)).
  assert (Hu : cached "copilot" known_later = None) by (vm_compute; reflexivity).
  assert (Hc' : cached "copilot_user" asked_user = Some empty_login)
    by (vm_compute; reflexivity).
  assert (Hname' : username_of empty_login = Raise identity_error) by reflexivity.
  assert (Hu' : cached "copilot" asked_user = None) by (vm_compute; reflexivity).
  split; [|split].
  - split; [exact Hm|]. split; [exact Hd|]. split; [exact Hid|]. split; [exact Hlt|].
    split; [exact (proj1 (Hstore _ _ _ _ _ _ _ Hm Hd Hid Hlt)) | exact Hc].
  - split; [exact Hname|]. split; [exact Hu|].
    exact (Hgood unreachable "ghp_y" known_later octocat (JStr "octocat") _ _
             Hc Hname Hu (surjective_pairing _)).
  - split; [exact Hc'|]. split; [exact Hname'|]. split; [exact Hu'|].
    exact (Hbad github "ghp_y" asked_user empty_login identity_error _ _
             Hc' Hname' Hu' (surjective_pairing _)).
Defined.

Lemma X3_failed_fetch_keeps_cache_witness :
  get_copilot_usage unreachable "ghp_x" cold = (Raise timed_out, after_failure)
  /\ store after_failure !! "copilot" = store cold !! "copilot"
  /\ (store after_failure = store cold
      \/ exists data,
           cached "copilot_user" cold = None
           /\ received (unreachable UserEndpoint "ghp_x") = Ok data
           /\ store after_failure
              = <["copilot_user" := CacheEntry data (clock cold) 3600]> (store cold)).
Proof.
  assert (H : get_copilot_usage unreachable "ghp_x" cold = (Raise timed_out, after_failure))
    by (vm_compute; reflexivity).
  split; [exact H|].
  exact (X3_failed_fetch_keeps_cache _ _ _ _ _ H).
Defined.

Lemma X4_usage_answer_shapes_witness :
  (dict_get "usageItems" no_items_answer = None
   /\ reduce_usage (JDict no_items_answer)
      = Ok (JDict (("used", JNum (Py.Int 0)) :: ("raw", JDict no_items_answer) :: nil)))
  /\ (is_object (JStr "oops") = false
      /\ exists msg, reduce_usage (JStr "oops") = Raise (Exn AttributeError msg))
  /\ (reduce_usage (JList three_items) = Ok snapshot_3
      /\ exists qs total,
           quantities three_items = Some qs
           /\ py_sum (Py.Int 0) qs = Ok total
           /\ snapshot_3
              = JDict (("used", JNum (Py.round1 total)) :: ("raw", JList three_items) :: nil)).
Proof.
  destruct X4_usage_answer_shapes as (Hnone & Hother & Hlist).
  assert (H1 : dict_get "usageItems" no_items_answer = None) by reflexivity.
  assert (H2 : is_object (JStr "oops") = false) by reflexivity.
  assert (H3 : reduce_usage (JList three_items) = Ok snapshot_3) by (vm_compute; reflexivity).
  split; [|split].
  - split; [exact H1 | exact (Hnone _ H1)].
  - split; [exact H2|]. apply (Hother _ H2). intros items H. discriminate H.
  - split; [exact H3 | exact (Hlist _ _ H3)].
Defined.

Lemma X5_first_bad_item_witness :
  (quantities (line_item 10 10 :: nil) = Some (Py.Float (dbl 10 10) :: nil)
   /\ py_sum (Py.Int 0) (Py.Float (dbl 10 10) :: nil) = Ok (Py.Float (dbl 10 10)))
  /\ (quantity (JStr "x") = None
      /\ exists e,
           reduce_usage (JList ((line_item 10 10 :: nil) ++ JStr "x" :: line_item 25 10 :: nil)%list)
           = Raise e
           /\ exn_cls e = AttributeError)
  /\ (quantity text_item = None
      /\ exists e,
           reduce_usage (JList ((line_item 10 10 :: nil) ++ text_item :: line_item 25 10 :: nil)%list)
           = Raise e
           /\ exn_cls e = TypeError).
Proof.
  assert (Hq : quantities (line_item 10 10 :: nil) = Some (Py.Float (dbl 10 10) :: nil))
    by (vm_compute; reflexivity).
  assert (Hs : py_sum (Py.Int 0) (Py.Float (dbl 10 10) :: nil) = Ok (Py.Float (dbl 10 10)))
    by (vm_compute; reflexivity).
  assert (Hb1 : quantity (JStr "x") = None) by reflexivity.
  assert (Hb2 : quantity text_item = None) by reflexivity.
  split; [split; [exact Hq | exact Hs]|]. split.
  - split; [exact Hb1|].
    exact (X5_first_bad_item _ (JStr "x") (line_item 25 10 :: nil) _ _ Hq Hs Hb1).
  - split; [exact Hb2|].
    exact (X5_first_bad_item _ text_item (line_item 25 10 :: nil) _ _ Hq Hs Hb2).
Defined.


Lemma X7_total_not_finite_witness :
  given (GITHUB_TOKEN (load_copilot_config conf_with_token)) = Some "ghp_x"
  /\ fetch_used overflowing "ghp_x" cold = (Ok (JNum (Py.Float infinity)), after_overflow)
  /\ Py.is_finite infinity = false
  /\ (exists e,
         print_waybar plain_eta plain_template (Py.Float infinity) 300 None None mid_june
         = Raise e)
  /\ (exists e, print_cli plain_eta (Py.Float infinity) 300 mid_june = Raise e)
  /\ (exists e,
         main plain_eta plain_template overflowing waybar_args conf_with_token mid_june cold
         = (Outcome nil (Traceback e :: nil) 1, after_overflow)).
Proof.
  assert (Ht : given (GITHUB_TOKEN (load_copilot_config conf_with_token)) = Some "ghp_x")
    by (vm_compute; reflexivity).
  assert (Hf : fetch_used overflowing "ghp_x" cold
               = (Ok (JNum (Py.Float infinity)), after_overflow))
    by (vm_compute; reflexivity).
  assert (Hx : Py.is_finite infinity = false) by reflexivity.
  destruct (X7_total_not_finite plain_eta plain_template overflowing waybar_args
              conf_with_token mid_june cold "ghp_x" infinity after_overflow Ht Hf Hx)
    as (Hbar & Hcli & Hmain).
  split; [exact Ht|]. split; [exact Hf|]. split; [exact Hx|].
  split; [exact (Hbar 300 None None)|].
  split; [exact (Hcli 300 ltac:(lia))|].
  apply Hmain. left. reflexivity.
Defined.

Lemma X9_no_usage_witness :
  valid_datetime mid_june = true
  /\ last_month mid_june = false
  /\ reduce_usage (JList nil)
     = Ok (JDict (("used", JNum (Py.Int 0)) :: ("raw", JList nil) :: nil))
  /\ exists payload,
       print_waybar plain_eta plain_template (Py.Int 0) 300 None None mid_june = Ok payload
       /\ field "percentage" payload = Some (JNum (Py.Int 0))
       /\ field "class" payload = Some (JStr "copilot-low").
Proof.
  assert (Hv : valid_datetime mid_june = true) by reflexivity.
  assert (Hl : last_month mid_june = false) by reflexivity.
  split; [exact Hv|]. split; [exact Hl|].
  exact (X9_no_usage plain_eta plain_template 300 mid_june Hv Hl).
Defined.

Lemma X10_failure_labels_witness :
  (exists e,
      received (HTTPError 500 "see error 403 in the log") = Raise e
      /\ exn_msg e = "HTTP " ++ Str.of_Z 500 ++ ": " ++ "see error 403 in the log"
      /\ short_err_of (exn_msg e) = "Auth Err")
  /\ (given (GITHUB_TOKEN (load_copilot_config conf_with_token)) = Some "ghp_x"
      /\ cached "copilot" cold = None
      /\ cached "copilot_user" cold = None
      /\ unauthorized UserEndpoint "ghp_x" = HTTPError 401 "Bad credentials"
      /\ exists e,
           exn_msg e = "HTTP " ++ Str.of_Z 401 ++ ": " ++ "Bad credentials"
           /\ short_err_of (exn_msg e) = "Auth Err"
           /\ fst (main plain_eta plain_template unauthorized cli_args conf_with_token
                     mid_june cold)
              = Outcome nil (Text ("[!] Critical Error: " ++ exn_msg e) :: nil) 1).
Proof.
  destruct X10_failure_labels as (Hhttp & _ & Hmain).
  assert (Ht : given (GITHUB_TOKEN (load_copilot_config conf_with_token)) = Some "ghp_x")
    by (vm_compute; reflexivity).
  assert (Hc : cached "copilot" cold = None) by reflexivity.
  assert (Hu : cached "copilot_user" cold = None) by reflexivity.
  assert (Hn : unauthorized UserEndpoint "ghp_x" = HTTPError 401 "Bad credentials")
    by reflexivity.
  split.
  - apply Hhttp. right. right. right. reflexivity.
  - split; [exact Ht|]. split; [exact Hc|]. split; [exact Hu|]. split; [exact Hn|].
    exact (Hmain plain_eta plain_template unauthorized cli_args conf_with_token mid_june
             cold "ghp_x" 401 "Bad credentials" Ht Hc Hu Hn (or_introl eq_refl)).
Defined.

Lemma X13_configuration_round_trip_witness :
  no_linebreak "ghp_a=b#c" = true
  /\ Repr.ndigits (Z.abs (-5)) <= Str.MAX_STR_DIGITS
  /\ Str.to_int (Str.of_Z (-5)) = Some (-5)
  /\ load_copilot_config
       (Some (("GITHUB_TOKEN=" ++ "ghp_a=b#c") ++ NL ++ ("COPILOT_QUOTA=" ++ Str.of_Z (-5)) ++ NL))
     = Config (Some (Str.strip "ghp_a=b#c")) (-5).
Proof.
  assert (Ht : no_linebreak "ghp_a=b#c" = true) by reflexivity.
  assert (Hn : Repr.ndigits (Z.abs (-5)) <= Str.MAX_STR_DIGITS) by (vm_compute; discriminate).
  split; [exact Ht|]. split; [exact Hn|].
  exact (X13_configuration_round_trip "ghp_a=b#c" (-5) Ht Hn).
Defined.


Lemma X15_label_of_other_failures_witness :
  (username_of empty_login = Raise identity_error
   /\ short_err_of (exn_msg identity_error) = "Net Err")
  /\ (reduce_usage (JStr "oops") = Raise no_get
      /\ short_err_of (exn_msg no_get) = "Net Err").
Proof.
  destruct X15_label_of_other_failures as (Hid & Hred).
  assert (H1 : username_of empty_login = Raise identity_error) by reflexivity.
  assert (H2 : reduce_usage (JStr "oops") = Raise no_get) by reflexivity.
  split.
  - split; [exact H1 | exact (Hid _ _ H1)].
  - split; [exact H2 | exact (Hred _ _ H2)].
Defined.

Lemma X16_first_run_witness :
  given (GITHUB_TOKEN (load_copilot_config conf_with_token)) = Some "ghp_x"
  /\ cached "copilot" cold = None
  /\ cached "copilot_user" cold = None
  /\ github UserEndpoint "ghp_x" = Body octocat
  /\ username_of octocat = Ok (JStr "octocat")
  /\ github (UsageEndpoint (JStr "octocat")) "ghp_x" = Body (JList three_items)
  /\ reduce_usage (JList three_items) = Ok snapshot_3
  /\ exists used,
       field "used" snapshot_3 = Some (JNum used)
       /\ main plain_eta plain_template github waybar_args conf_with_token mid_june cold
          = (present plain_eta plain_template waybar_args (JNum used)
               (COPILOT_QUOTA (load_copilot_config conf_with_token)) mid_june,
             after_cold_run "ghp_x" octocat (JStr "octocat") snapshot_3 cold).
Proof.
  assert (Ht : given (GITHUB_TOKEN (load_copilot_config conf_with_token)) = Some "ghp_x")
    by (vm_compute; reflexivity).
  assert (Hc : cached "copilot" cold = None) by reflexivity.
  assert (Hu : cached "copilot_user" cold = None) by reflexivity.
  assert (Hn1 : github UserEndpoint "ghp_x" = Body octocat) by reflexivity.
  assert (Hname : username_of octocat = Ok (JStr "octocat")) by reflexivity.
  assert (Hn2 : github (UsageEndpoint (JStr "octocat")) "ghp_x" = Body (JList three_items))
    by reflexivity.
  assert (Hred : reduce_usage (JList three_items) = Ok snapshot_3)
    by (vm_compute; reflexivity).
  split; [exact Ht|]. split; [exact Hc|]. split; [exact Hu|]. split; [exact Hn1|].
  split; [exact Hname|]. split; [exact Hn2|]. split; [exact Hred|].
  exact (X16_first_run plain_eta plain_template github waybar_args conf_with_token mid_june
           cold "ghp_x" octocat (JStr "octocat") (JList three_items) snapshot_3
           Ht Hc Hu Hn1 Hname Hn2 Hred).
Defined.

Lemma X18_reset_text_witness :
  valid_datetime mid_june = true
  /\ last_month mid_june = false
  /\ exists y m,
       _next_month_reset_iso mid_june
       = Ok (zero_pad 4 y ++ "-" ++ zero_pad 2 m ++ "-01T00:00:00+00:00")
       /\ 12 * y + (m - 1) = month_index mid_june + 1
       /\ String.length (zero_pad 4 y) = 4%nat
       /\ String.length (zero_pad 2 m) = 2%nat
       /\ String.length (zero_pad 4 y ++ "-" ++ zero_pad 2 m ++ "-01T00:00:00+00:00") = 25%nat.
Proof.
  assert (Hv : valid_datetime mid_june = true) by reflexivity.
  assert (Hl : last_month mid_june = false) by reflexivity.
  split; [exact Hv|]. split; [exact Hl|].
  exact (X18_reset_text mid_june Hv Hl).
Defined.


Lemma X19_templates_witness :
  print_waybar plain_eta plain_template used_3_5 300 (Some "{pct}%") None mid_june
  = Ok payload_templated
  /\ print_waybar plain_eta plain_template used_3_5 300 None None mid_june = Ok payload_default
  /\ given (Some "{pct}%") = Some "{pct}%"
  /\ (field "class" payload_default = field "class" payload_templated
      /\ field "percentage" payload_default = field "percentage" payload_templated)
  /\ exists data,
       map fst data = template_keys
       /\ dict_get "used" data = Some (JNum used_3_5)
       /\ dict_get "quota" data = Some (JNum (Py.Int 300))
       /\ dict_get "pct" data = field "percentage" payload_templated
       /\ exists text,
            plain_template "{pct}%" data = Ok text
            /\ field "text" payload_templated = Some (JStr text).
Proof.
  destruct (X19_templates plain_eta plain_template used_3_5 300 mid_june)
    as (_ & Hsame & Hdata).
  assert (H1 : print_waybar plain_eta plain_template used_3_5 300 (Some "{pct}%") None mid_june
               = Ok payload_templated) by (vm_compute; reflexivity).
  assert (H2 : print_waybar plain_eta plain_template used_3_5 300 None None mid_june
               = Ok payload_default) by (vm_compute; reflexivity).
  assert (Hg : given (Some "{pct}%") = Some "{pct}%") by reflexivity.
  split; [exact H1|]. split; [exact H2|]. split; [exact Hg|].
  split; [exact (Hsame _ _ _ _ _ _ H1 H2)|].
  destruct (Hdata _ _ _ H1) as (data & Hk & Hu & Hq & Hp & Ht & _).
  exists data.
  split; [exact Hk|]. split; [exact Hu|]. split; [exact Hq|]. split; [exact Hp|].
  exact (Ht _ Hg).
Defined.
